(** * Plant disease detector: image intake and prediction orchestration

    A shallow embedding of the backend of the plant disease detector
    ([backend/utils/image_processor.py], [backend/models/disease_detector.py]
    and the [/api/detect] route of [backend/main.py]), with the properties of
    its specification proved about it.

    Python exceptions are an error monad, [try]/[except] is [try_except].
    Pillow, OpenCV and TensorFlow are collaborators of the program: their
    calls are fields of the records [PIL], [cv2] and [tf], each call able to
    raise.  NumPy arrays are a shape with flat row-major data, and the simple
    array operations of the program (stacking, slicing, casting, scaling,
    [argmax]) are written out.  Floating-point numbers are the IEEE 754
    values of [SpecFloat]: binary32 for [np.float32], binary64 for Python's
    [float].  [Image] holds the images whose samples are bytes; [DeepImage]
    holds those of 16-bit, 32-bit and floating-point samples, on which the
    normalizer runs the same code. *)

From Stdlib Require Import ZArith NArith String Ascii Bool Lia List.
From Stdlib Require Import Strings.Byte DecimalString SpecFloat.
Import ListNotations.

Local Open Scope string_scope.
Local Open Scope list_scope.
Local Open Scope nat_scope.

(** ** Exceptions *)

Module Py.

(** The exceptions the program meets.  [LibError] is any exception raised
    inside Pillow, OpenCV, NumPy or TensorFlow, with its [str()]. *)
Inductive exn : Type :=
| ValueError (msg : string)
| IndexError (msg : string)
| KeyError (msg : string)
| AttributeError (msg : string)
| LibError (origin msg : string)
| HTTPException (status_code : nat) (detail : string).

Inductive result (A : Type) : Type :=
| Return (a : A)
| Raise (e : exn).
Arguments Return {A} a.
Arguments Raise {A} e.

Definition bind {A B} (r : result A) (k : A -> result B) : result B :=
  match r with
  | Return a => k a
  | Raise e => Raise e
  end.

(** [try: body except Exception as e: handler e] *)
Definition try_except {A} (body : result A) (handler : exn -> result A) : result A :=
  match body with
  | Return a => Return a
  | Raise e => handler e
  end.

(** [str(n)] / [f"{n}"] of a non-negative int. *)
Definition str_of_nat (n : nat) : string :=
  NilZero.string_of_uint (Nat.to_uint n).

(** [str(e)].  The [str] of a [KeyError] is the [repr] of its key, which
    for the keys of this program (letters and underscores) is the key between
    single quotes; Starlette renders an HTTPException as
    ["<status>: <detail>"]. *)
Definition str (e : exn) : string :=
  match e with
  | ValueError m | IndexError m | AttributeError m => m
  | KeyError k => "'" ++ k ++ "'"
  | LibError _ m => m
  | HTTPException c d => str_of_nat c ++ ": " ++ d
  end.

End Py.
Export Py.

Declare Scope py_scope.
Delimit Scope py_scope with py.
Notation "x <- c ;; k" := (bind c (fun x => k))
  (at level 61, c at next level, right associativity) : py_scope.
Local Open Scope py_scope.

(** ** Floating point *)

Module Float.

(** [np.float32]: 24 bits of precision, infinities at exponent 128. *)
Definition f32_of_Z (z : Z) : spec_float := binary_normalize 24 128 z 0 false.
Definition f32_div : spec_float -> spec_float -> spec_float := SFdiv 24 128.
Definition is_f32 (x : spec_float) : bool :=
  match x with
  | S754_finite _ m e => bounded 24 128 m e
  | _ => true
  end.

(** Python's [float] and [np.float64]: 53 bits, infinities at 1024. *)
Definition f64_of_Z (z : Z) : spec_float := binary_normalize 53 1024 z 0 false.
Definition f64_div : spec_float -> spec_float -> spec_float := SFdiv 53 1024.

(** [float(x)] of a NumPy scalar: the same number as a binary64. *)
Definition float (x : spec_float) : spec_float :=
  match x with
  | S754_finite s m e => binary_normalize 53 1024 (cond_Zopp s (Zpos m)) e s
  | _ => x
  end.

Definition is_nan (x : spec_float) : bool :=
  match x with S754_nan => true | _ => false end.

(** [x < y], [x <= y], [x > y] as Python and C evaluate them (false on NaN). *)
Definition lt (x y : spec_float) : bool := SFltb x y.
Definition le (x y : spec_float) : bool := SFleb x y.
Definition gt (x y : spec_float) : bool := SFltb y x.

End Float.

(** ** NumPy arrays *)

Module np.

(** An array is its shape and its elements in row-major (C) order. *)
Record ndarray (A : Type) : Type := mk_ndarray {
  shape : list nat;
  data : list A
}.
Arguments mk_ndarray {A} shape data.
Arguments shape {A} n.
Arguments data {A} n.

(** [np.stack([a] * 3, axis=-1)]: a new last axis of length 3 holding three
    copies of each element. *)
Definition stack3_last {A} (a : ndarray A) : ndarray A :=
  mk_ndarray (shape a ++ [3]) (flat_map (fun x => [x; x; x]) (data a)).

(** The first [k] entries of each of [n] consecutive groups of [c]. *)
Fixpoint take_channels {A} (k c n : nat) (l : list A) : list A :=
  match n with
  | O => []
  | S n' => firstn k (firstn c l) ++ take_channels k c n' (skipn c l)
  end.

(** [a[:, :, :3]] on an array of three axes. *)
Definition slice_last3 {A} (a : ndarray A) : result (ndarray A) :=
  match shape a with
  | [h; w; c] =>
      Return (mk_ndarray [h; w; Nat.min 3 c] (take_channels 3 c (h * w) (data a)))
  | _ => Raise (IndexError "too many indices for array")
  end.

(** [a[:, :, 0]] on an array of three axes. *)
Definition channel0 {A} (a : ndarray A) : result (ndarray A) :=
  match shape a with
  | [h; w; c] =>
      if c =? 0 then Raise (IndexError "index 0 is out of bounds for axis 2 with size 0")
      else Return (mk_ndarray [h; w] (take_channels 1 c (h * w) (data a)))
  | _ => Raise (IndexError "too many indices for array")
  end.

(** The groups of [c] of [l] with the first entry of each replaced from [v]. *)
Fixpoint put_channel0 {A} (c : nat) (v l : list A) : list A :=
  match v with
  | [] => []
  | x :: v' => (x :: skipn 1 (firstn c l)) ++ put_channel0 c v' (skipn c l)
  end.

Definition shape_eqb (s1 s2 : list nat) : bool :=
  (length s1 =? length s2) && forallb (fun p => fst p =? snd p) (combine s1 s2).

(** [a[:, :, 0] = v] with [v] of shape [(h, w)], the shape OpenCV returns
    for a plane it was given; another shape is refused. *)
Definition set_channel0 {A} (a v : ndarray A) : result (ndarray A) :=
  match shape a with
  | [h; w; c] =>
      if c =? 0 then Raise (IndexError "index 0 is out of bounds for axis 2 with size 0")
      else if shape_eqb (shape v) [h; w]
      then Return (mk_ndarray [h; w; c] (put_channel0 c (data v) (data a)))
      else Raise (ValueError "could not broadcast input array")
  | _ => Raise (IndexError "too many indices for array")
  end.

Definition byte_is_zero (b : byte) : bool := (Byte.to_N b =? 0)%N.

(** The groups of [c] of [l], zeroed where the mask entry is zero. *)
Fixpoint zero_where (c : nat) (mask l : list byte) : list byte :=
  match mask with
  | [] => []
  | m :: mt =>
      (if byte_is_zero m then repeat x00 c else firstn c l) ++ zero_where c mt (skipn c l)
  end.

(** [a[mask == 0] = [0, 0, 0]]: the mask indexes the leading axes, and the
    three zeros must broadcast to what is selected. *)
Definition blackout (a mask : ndarray byte) : result (ndarray byte) :=
  match shape a with
  | [h; w; c] =>
      if negb (shape_eqb (shape mask) [h; w])
      then Raise (IndexError "boolean index did not match indexed array")
      else if c =? 3 then Return (mk_ndarray [h; w; c] (zero_where c (data mask) (data a)))
      else Raise (ValueError "shape mismatch: value array could not be broadcast")
  | [h; w] =>
      if negb (shape_eqb (shape mask) [h; w])
      then Raise (IndexError "boolean index did not match indexed array")
      else if length (filter byte_is_zero (data mask)) =? 3
      then Return (mk_ndarray [h; w] (zero_where 1 (data mask) (data a)))
      else Raise (ValueError "shape mismatch: value array could not be broadcast")
  | _ => Raise (IndexError "boolean index did not match indexed array")
  end.

(** [np.ones((h, w), np.uint8)] *)
Definition ones (h w : nat) : ndarray byte := mk_ndarray [h; w] (repeat x01 (h * w)).

(** [a.astype(np.float32)] on a [uint8] array: every byte is exact. *)
Definition astype_float32 (a : ndarray byte) : ndarray spec_float :=
  mk_ndarray (shape a) (map (fun b => Float.f32_of_Z (Z.of_N (Byte.to_N b))) (data a)).

(** [a / 255.0] on a [float32] array: the Python scalar takes the array's
    type, the division is binary32's. *)
Definition div_scalar_f32 (a : ndarray spec_float) (z : Z) : ndarray spec_float :=
  mk_ndarray (shape a) (map (fun x => Float.f32_div x (Float.f32_of_Z z)) (data a)).

(** [np.expand_dims(a, axis=0)] *)
Definition expand_dims0 {A} (a : ndarray A) : ndarray A :=
  mk_ndarray (1 :: shape a) (data a).

(** [np.mean] of a [uint8] array: summed in binary64 (exact below 2^53),
    divided by the count; NaN on an empty array. *)
Definition mean (a : ndarray byte) : spec_float :=
  Float.f64_div
    (Float.f64_of_Z (fold_left (fun s b => (s + Z.of_N (Byte.to_N b))%Z) (data a) 0%Z))
    (Float.f64_of_Z (Z.of_nat (length (data a)))).

(** The scan of [np.argmax] over floats: the running maximum [mp] at index
    [mi] is replaced by an entry that is not [<=] it; a NaN ends the scan. *)
Fixpoint argmax_scan (mp : spec_float) (mi i : nat) (l : list spec_float) : nat :=
  match l with
  | [] => mi
  | x :: t =>
      if Float.is_nan mp then mi
      else if Float.le x mp then argmax_scan mp mi (S i) t
      else argmax_scan x i (S i) t
  end.

Definition argmax (l : list spec_float) : result nat :=
  match l with
  | [] => Raise (ValueError "attempt to get argmax of an empty sequence")
  | x :: t => Return (argmax_scan x 0 1 t)
  end.

End np.
Export np.

(** ** Pillow images *)

Module Image.

(** The 8-bit modes of Pillow and their bands. *)
Inductive Mode : Type := L | P | LA | RGB | RGBA | CMYK.

Definition bands (m : Mode) : nat :=
  match m with
  | L | P => 1
  | LA => 2
  | RGB => 3
  | RGBA | CMYK => 4
  end.

Definition mode_eqb (a b : Mode) : bool :=
  match a, b with
  | L, L | P, P | LA, LA | RGB, RGB | RGBA, RGBA | CMYK, CMYK => true
  | _, _ => false
  end.

Inductive Resampling : Type := NEAREST | BOX | BILINEAR | HAMMING | BICUBIC | LANCZOS.

(** A decoded image: 8-bit samples, pixels row by row, bands interleaved. *)
Record Image : Type := mk_Image {
  mode : Mode;
  width : nat;
  height : nat;
  pixels : list byte
}.

Definition well_formed (im : Image) : Prop :=
  length (pixels im) = height im * width im * bands (mode im).

(** [np.array(image)]: [(height, width)] for one band, otherwise
    [(height, width, bands)], of [uint8]. *)
Definition to_array (im : Image) : ndarray byte :=
  if bands (mode im) =? 1
  then mk_ndarray [height im; width im] (pixels im)
  else mk_ndarray [height im; width im; bands (mode im)] (pixels im).

(** [Image.fromarray] on a [uint8] array. *)
Definition fromarray (a : ndarray byte) : result Image :=
  match shape a with
  | [h; w] => Return (mk_Image L w h (data a))
  | [h; w; 2] => Return (mk_Image LA w h (data a))
  | [h; w; 3] => Return (mk_Image RGB w h (data a))
  | [h; w; 4] => Return (mk_Image RGBA w h (data a))
  | _ => Raise (LibError "PIL" "Cannot handle this data type")
  end.

End Image.
Export Image.

(** ** The collaborators *)

(** Pillow: decoding, mode conversion and resampling. *)
Record PIL : Type := {
  Image_open : list byte -> result Image;
  convert : Image -> Mode -> result Image;
  resize : Image -> nat * nat -> Resampling -> result Image
}.

(** What the program relies on when [resize] returns: an image of the
    requested [(width, height)] in the mode of the source. *)
Definition resized_to (src : Image) (size : nat * nat) (out : Image) : Prop :=
  well_formed out /\ width out = fst size /\ height out = snd size /\ mode out = mode src.

(** OpenCV.  A CLAHE object is its [apply] method. *)
Inductive ColorConversion : Type :=
| COLOR_RGB2BGR | COLOR_BGR2LAB | COLOR_LAB2BGR | COLOR_BGR2RGB
| COLOR_RGB2HSV | COLOR_RGB2GRAY.

Inductive MorphType : Type := MORPH_CLOSE | MORPH_OPEN.

Inductive Depth : Type := CV_64F.

Record CLAHE : Type := { apply : ndarray byte -> result (ndarray byte) }.

Record cv2 : Type := {
  cvtColor : ndarray byte -> ColorConversion -> result (ndarray byte);
  createCLAHE : spec_float -> nat * nat -> result CLAHE;
  inRange : ndarray byte -> list nat -> list nat -> result (ndarray byte);
  morphologyEx : ndarray byte -> MorphType -> ndarray byte -> result (ndarray byte);
  Laplacian : ndarray byte -> Depth -> result (ndarray spec_float)
}.

(** NumPy's floating-point reduction: [a.var()] of a [float64] array is a
    pairwise summation whose rounding is NumPy's own; it returns a number
    (NaN on an empty array) and does not raise. *)
Record numpy : Type := { var : ndarray spec_float -> spec_float }.

(** ** utils/image_processor.py *)

Module ImageProcessor.

Record ImageProcessor : Type := { target_size : nat * nat }.

(** [ImageProcessor(target_size=(224, 224))] *)
Definition __init__ : ImageProcessor := {| target_size := (224, 224) |}.

Section Methods.
Variable pil : PIL.
Variable cv : cv2.
Variable npy : numpy.
Variable self : ImageProcessor.

(** The "ensure 3 channels" step of [preprocess_image]. *)
Definition ensure_3_channels (img_array : ndarray byte) : result (ndarray byte) :=
  if length (shape img_array) =? 2 then
    Return (stack3_last img_array)
  else
    match nth_error (shape img_array) 2 with
    | None => Raise (IndexError "tuple index out of range")
    | Some c =>
        if c =? 4 then slice_last3 img_array
        else Return img_array
    end.

Definition preprocess_image (image : Image) : result (ndarray spec_float) :=
  try_except
    (image <- resize pil image (target_size self) LANCZOS ;;
     let img_array := to_array image in
     img_array <- ensure_3_channels img_array ;;
     let img_array := div_scalar_f32 (astype_float32 img_array) 255 in
     Return img_array)
    (fun e => Raise (ValueError ("Failed to preprocess image: " ++ str e))).

(** The body of the [try] of [enhance_image]. *)
Definition enhance_image_try (image : Image) : result Image :=
  let img_array := to_array image in
  img_bgr <- cvtColor cv img_array COLOR_RGB2BGR ;;
  lab <- cvtColor cv img_bgr COLOR_BGR2LAB ;;
  clahe <- createCLAHE cv (Float.f64_of_Z 3) (8, 8) ;;
  plane <- channel0 lab ;;
  plane <- apply clahe plane ;;
  lab <- set_channel0 lab plane ;;
  enhanced <- cvtColor cv lab COLOR_LAB2BGR ;;
  enhanced_rgb <- cvtColor cv enhanced COLOR_BGR2RGB ;;
  fromarray enhanced_rgb.

Definition enhance_image (image : Image) : result Image :=
  try_except (enhance_image_try image) (fun e => Return image).

(** The body of the [try] of [detect_leaf_regions]. *)
Definition detect_leaf_regions_try (image : Image) : result Image :=
  let img_array := to_array image in
  hsv <- cvtColor cv img_array COLOR_RGB2HSV ;;
  let lower_green := [35; 40; 40] in
  let upper_green := [85; 255; 255] in
  mask <- inRange cv hsv lower_green upper_green ;;
  let kernel := ones 5 5 in
  mask <- morphologyEx cv mask MORPH_CLOSE kernel ;;
  mask <- morphologyEx cv mask MORPH_OPEN kernel ;;
  let result := img_array in
  result <- blackout result mask ;;
  fromarray result.

Definition detect_leaf_regions (image : Image) : result Image :=
  try_except (detect_leaf_regions_try image) (fun e => Return image).

(** The mean of the luminance plane, as [validate_image_quality] computes it. *)
Definition mean_brightness (image : Image) : result spec_float :=
  gray <- convert pil image L ;;
  let img_array := to_array gray in
  Return (mean img_array).

(** The variance of the Laplacian, as [validate_image_quality] computes it. *)
Definition laplacian_var (image : Image) : result spec_float :=
  img_gray <- cvtColor cv (to_array image) COLOR_RGB2GRAY ;;
  lap <- Laplacian cv img_gray CV_64F ;;
  Return (var npy lap).

(** The body of the [try] of [validate_image_quality]. *)
Definition validate_image_quality_try (image : Image) : result (bool * string) :=
  let min_size := 100 in
  if (width image <? min_size) || (height image <? min_size) then
    Return (false, ("Image too small. Minimum size: " ++ str_of_nat min_size
                    ++ "x" ++ str_of_nat min_size)%string)
  else
    brightness <- mean_brightness image ;;
    if Float.lt brightness (Float.f64_of_Z 30) then
      Return (false, "Image too dark. Please use better lighting.")
    else if Float.gt brightness (Float.f64_of_Z 220) then
      Return (false, "Image too bright. Please reduce lighting.")
    else
      variance <- laplacian_var image ;;
      if Float.lt variance (Float.f64_of_Z 100) then
        Return (false, "Image appears blurry. Please take a clearer photo.")
      else
        Return (true, "Image quality is acceptable").

Definition validate_image_quality (image : Image) : result (bool * string) :=
  try_except (validate_image_quality_try image)
    (fun e => Return (true, "Could not validate image quality, proceeding anyway")).

End Methods.

End ImageProcessor.

(** ** Images of deeper samples

    Pillow also decodes images whose samples are not bytes: mode [I;16]
    holds unsigned 16-bit samples, mode [I] signed 32-bit ones and mode [F]
    binary32 numbers, each in a single band.  [np.array] gives them as
    arrays of [uint16], [int32] and [float32] of shape (height, width), and
    [preprocess_image] runs on them as it is written, with no clipping. *)

Module DeepImage.

(** The modes [I;16], [I] and [F]. *)
Inductive Mode : Type := I16 | I32 | F32.

(** A sample: an integer in the modes [I;16] and [I], a binary32 number in
    the mode [F]. *)
Inductive sample : Type :=
| int (z : Z)
| real (x : spec_float).

Definition in_mode (m : Mode) (s : sample) : bool :=
  match m, s with
  | I16, int z => (0 <=? z)%Z && (z <? 65536)%Z
  | I32, int z => (-2147483648 <=? z)%Z && (z <? 2147483648)%Z
  | F32, real x => Float.is_f32 x
  | _, _ => false
  end.

(** A decoded image of one band, pixels row by row. *)
Record Image : Type := mk_Image {
  mode : Mode;
  width : nat;
  height : nat;
  pixels : list sample
}.

Definition well_formed (im : Image) : Prop :=
  length (pixels im) = height im * width im
  /\ forallb (in_mode (mode im)) (pixels im) = true.

(** [np.array(image)]: [(height, width)], of the sample type of the mode. *)
Definition to_array (im : Image) : ndarray sample :=
  mk_ndarray [height im; width im] (pixels im).

(** [x.astype(np.float32)] of one element: an integer goes to the nearest
    binary32 (itself below 2^24), a binary32 stays. *)
Definition to_float32 (s : sample) : spec_float :=
  match s with
  | int z => Float.f32_of_Z z
  | real x => x
  end.

Definition astype_float32 (a : ndarray sample) : ndarray spec_float :=
  mk_ndarray (shape a) (map to_float32 (data a)).

(** Pillow's resampling of these images. *)
Record PIL : Type := {
  resize : Image -> nat * nat -> Resampling -> result Image
}.

Section Methods.
Variable pil : PIL.
Variable self : ImageProcessor.ImageProcessor.

(** The "ensure 3 channels" step of [preprocess_image]. *)
Definition ensure_3_channels (img_array : ndarray sample) : result (ndarray sample) :=
  if length (shape img_array) =? 2 then
    Return (stack3_last img_array)
  else
    match nth_error (shape img_array) 2 with
    | None => Raise (IndexError "tuple index out of range")
    | Some c =>
        if c =? 4 then slice_last3 img_array
        else Return img_array
    end.

(** [preprocess_image] on an image of these modes. *)
Definition preprocess_image (image : Image) : result (ndarray spec_float) :=
  try_except
    (image <- resize pil image (ImageProcessor.target_size self) LANCZOS ;;
     let img_array := to_array image in
     img_array <- ensure_3_channels img_array ;;
     let img_array := div_scalar_f32 (astype_float32 img_array) 255 in
     Return img_array)
    (fun e => Raise (ValueError ("Failed to preprocess image: " ++ str e))).

End Methods.

End DeepImage.

(** ** Python containers *)

Module Container.

(** [l[i]] on a list or on a row of an array. *)
Definition getitem {A} (l : list A) (i : nat) : result A :=
  match nth_error l i with
  | Some x => Return x
  | None => Raise (IndexError "list index out of range")
  end.

(** A [dict] with string keys, in insertion order. *)
Definition dict (V : Type) : Type := list (string * V).

Fixpoint dict_lookup {V} (d : dict V) (k : string) : option V :=
  match d with
  | [] => None
  | (k', v) :: t => if String.eqb k k' then Some v else dict_lookup t k
  end.

(** [d.get(k, default)] *)
Definition dict_get {V} (d : dict V) (k : string) (default : V) : V :=
  match dict_lookup d k with
  | Some v => v
  | None => default
  end.

(** [d[k]] *)
Definition dict_getitem {V} (d : dict V) (k : string) : result V :=
  match dict_lookup d k with
  | Some v => Return v
  | None => Raise (KeyError k)
  end.

(** [d[k] = v]: a present key keeps its place. *)
Fixpoint dict_set {V} (d : dict V) (k : string) (v : V) : dict V :=
  match d with
  | [] => [(k, v)]
  | (k', v') :: t => if String.eqb k k' then (k, v) :: t else (k', v') :: dict_set t k v
  end.

(** The values a prediction or a response holds. *)
Inductive value : Type :=
| VStr (s : string)
| VFloat (x : spec_float)
| VList (l : list string)
| VDict (d : dict spec_float).

End Container.
Export Container.

(** ** models/disease_detector.py *)

(** A Keras model is its [predict] method: a batch in, one row of class
    probabilities per sample out. *)
Record Model : Type := {
  model_predict : ndarray spec_float -> result (list (list spec_float))
}.

(** TensorFlow and the file system. *)
Record tf : Type := {
  os_path_exists : string -> bool;
  keras_load_model : string -> result Model;
  keras_Sequential : nat -> result Model
}.

Module DiseaseDetector.

Record DiseaseDetector : Type := {
  model : option Model;
  model_path : string;
  class_names : list string;
  recommendations : dict (list string)
}.

Definition set_model (self : DiseaseDetector) (m : Model) : DiseaseDetector :=
  {| model := Some m;
     model_path := model_path self;
     class_names := class_names self;
     recommendations := recommendations self |}.

(** [DiseaseDetector(model_path=None)].  The path is
    [model_path or "models/plant_disease_model.h5"]: [None] and the empty
    string both take the default. *)
Definition __init__ (path : option string) : DiseaseDetector :=
  {| model := None;
     model_path :=
       match path with
       | Some (String c p) => String c p
       | Some EmptyString | None => "models/plant_disease_model.h5"
       end;
     class_names :=
       [ "Healthy"; "Bacterial Spot"; "Early Blight"; "Late Blight"; "Leaf Mold";
         "Septoria Leaf Spot"; "Spider Mites"; "Target Spot";
         "Yellow Leaf Curl Virus"; "Mosaic Virus" ];
     recommendations :=
       [ ("Healthy",
          [ "Your plant appears healthy! Continue current care practices.";
            "Maintain proper watering and ensure good air circulation.";
            "Monitor regularly for any changes." ]);
         ("Bacterial Spot",
          [ "Remove affected leaves and dispose of them properly.";
            "Apply copper-based fungicide spray.";
            "Improve air circulation around plants.";
            "Water at soil level to avoid wetting leaves.";
            "Consider using drip irrigation." ]);
         ("Early Blight",
          [ "Remove and destroy infected plant debris.";
            "Apply fungicide containing chlorothalonil or copper.";
            "Ensure proper plant spacing for air circulation.";
            "Water early in the day so leaves dry quickly.";
            "Consider crop rotation next season." ]);
         ("Late Blight",
          [ "Remove affected plants immediately to prevent spread.";
            "Apply preventive fungicide spray (copper or mancozeb).";
            "Ensure good drainage and avoid overhead watering.";
            "Increase air circulation between plants.";
            "Monitor weather conditions - disease spreads in cool, wet weather." ]);
         ("Leaf Mold",
          [ "Improve greenhouse ventilation if growing indoors.";
            "Reduce humidity around plants.";
            "Remove infected leaves immediately.";
            "Apply fungicide spray in the evening.";
            "Consider resistant varieties for future planting." ]);
         ("Septoria Leaf Spot",
          [ "Remove infected leaves from bottom of plant first.";
            "Apply organic fungicide or neem oil spray.";
            "Mulch around plants to prevent soil splash.";
            "Water at ground level only.";
            "Stake plants to improve air circulation." ]);
         ("Spider Mites",
          [ "Spray plants with water to dislodge mites.";
            "Apply insecticidal soap or neem oil.";
            "Increase humidity around plants.";
            "Introduce beneficial insects like ladybugs.";
            "Remove heavily infested leaves." ]);
         ("Target Spot",
          [ "Remove infected plant debris immediately.";
            "Apply preventive fungicide treatment.";
            "Improve air circulation and reduce humidity.";
            "Avoid overhead watering.";
            "Consider soil sterilization for severe cases." ]);
         ("Yellow Leaf Curl Virus",
          [ "Remove infected plants to prevent spread.";
            "Control whitefly populations (vector of virus).";
            "Use reflective mulch to deter insects.";
            "Plant virus-resistant varieties.";
            "Monitor and remove weeds that may harbor the virus." ]);
         ("Mosaic Virus",
          [ "Remove and destroy infected plants immediately.";
            "Disinfect tools between plants.";
            "Control aphid populations (virus vector).";
            "Wash hands thoroughly when handling plants.";
            "Plant virus-resistant cultivars in future." ]) ] |}.

(** The default of [self.recommendations.get(disease_name, [...])]. *)
Definition default_recommendations : list string :=
  [ "Consult with a plant pathologist for specific treatment advice.";
    "Monitor the plant closely for changes.";
    "Consider isolating the plant if symptoms worsen." ].

(** The lookup of [predict]: [self.recommendations.get(disease_name, [...])]. *)
Definition get_recommendations (self : DiseaseDetector) (disease_name : string) : list string :=
  dict_get (recommendations self) disease_name default_recommendations.

(** The dict the [except] branch of [predict] returns. *)
Definition fallback : dict value :=
  [ ("disease", VStr "Analysis Failed");
    ("confidence", VFloat (S754_zero false));
    ("recommendations",
     VList [ "Unable to analyze image. Please try again with a clearer image.";
             "Ensure the image shows a clear view of plant leaves.";
             "Contact support if the problem persists." ]) ].

Section Methods.
Variable t : tf.

(** The network has one output per class name; its layers are TensorFlow's. *)
Definition _create_demo_model (self : DiseaseDetector) : result Model :=
  keras_Sequential t (length (class_names self)).

(** [load_model]: the stored model when its file exists and loads, the demo
    model otherwise; the [except] branch builds the demo model unguarded. *)
Definition load_model (self : DiseaseDetector) : result unit * DiseaseDetector :=
  match (if os_path_exists t (model_path self)
         then keras_load_model t (model_path self)
         else _create_demo_model self) with
  | Return m => (Return tt, set_model self m)
  | Raise _ =>
      match _create_demo_model self with
      | Return m => (Return tt, set_model self m)
      | Raise e => (Raise e, self)
      end
  end.

(** [{self.class_names[i]: float(predictions[0][i]) for i in range(...)}] *)
Fixpoint all_predictions (self : DiseaseDetector) (row : list spec_float)
    (indices : list nat) (acc : dict spec_float) : result (dict spec_float) :=
  match indices with
  | [] => Return acc
  | i :: rest =>
      name <- getitem (class_names self) i ;;
      p <- getitem row i ;;
      all_predictions self row rest (dict_set acc name (Float.float p))
  end.

(** "Add batch dimension if needed". *)
Definition add_batch_dimension (image : ndarray spec_float) : ndarray spec_float :=
  if length (shape image) =? 3 then expand_dims0 image else image.

(** The body of the [try] of [predict]. *)
Definition predict_try (self : DiseaseDetector) (image : ndarray spec_float)
    : result (dict value) :=
  let image := add_batch_dimension image in
  predictions <-
    match model self with
    | Some m => model_predict m image
    | None => Raise (AttributeError "'NoneType' object has no attribute 'predict'")
    end ;;
  row <- getitem predictions 0 ;;
  predicted_class_idx <- argmax row ;;
  p <- getitem row predicted_class_idx ;;
  let confidence := Float.float p in
  disease_name <- getitem (class_names self) predicted_class_idx ;;
  let recommendations := get_recommendations self disease_name in
  distribution <- all_predictions self row (seq 0 (length (class_names self))) [] ;;
  Return [ ("disease", VStr disease_name);
           ("confidence", VFloat confidence);
           ("recommendations", VList recommendations);
           ("all_predictions", VDict distribution) ].

(** [if self.model is None: await self.load_model()] *)
Definition ensure_model (self : DiseaseDetector) : result unit * DiseaseDetector :=
  match model self with
  | None => load_model self
  | Some _ => (Return tt, self)
  end.

Definition predict (self : DiseaseDetector) (image : ndarray spec_float)
    : result (dict value) * DiseaseDetector :=
  match ensure_model self with
  | (Raise e, self') => (Raise e, self')
  | (Return _, self') =>
      (try_except (predict_try self' image) (fun e => Return fallback), self')
  end.

End Methods.

Definition is_loaded (self : DiseaseDetector) : bool :=
  match model self with Some _ => true | None => false end.

Definition get_supported_diseases (self : DiseaseDetector) : list string :=
  class_names self.

End DiseaseDetector.

(** ** main.py: the [/api/detect] route *)

Module Main.

Import DiseaseDetector.

Record UploadFile : Type := {
  content_type : option string;
  contents : list byte
}.

Record JSONResponse : Type := { content : dict value }.

(** The calls the route makes on Pillow and on its two components, with
    their arguments, in the order they are made. *)
Inductive Call : Type :=
| Image_open_call (data : list byte)
| convert_call (image : Image) (m : Mode)
| preprocess_image_call (image : Image)
| validate_image_quality_call (image : Image)
| enhance_image_call (image : Image)
| detect_leaf_regions_call (image : Image)
| predict_call (image : ndarray spec_float).

(** The module-level state: the global [disease_detector], and the calls
    made so far. *)
Record App : Type := {
  disease_detector : DiseaseDetector;
  calls : list Call
}.

(** A request handler: it may raise, and it leaves a state either way. *)
Definition Route (A : Type) : Type := App -> result A * App.

Definition ret {A} (a : A) : Route A := fun s => (Return a, s).

Definition throw {A} (e : exn) : Route A := fun s => (Raise e, s).

Definition and_then {A B} (c : Route A) (k : A -> Route B) : Route B :=
  fun s =>
    match c s with
    | (Return a, s') => k a s'
    | (Raise e, s') => (Raise e, s')
    end.

(** A call on Pillow or on [image_processor]: recorded, then made. *)
Definition call {A} (c : Call) (r : result A) : Route A :=
  fun s => (r, {| disease_detector := disease_detector s; calls := calls s ++ [c] |}).

(** [await disease_detector.predict(image)]: recorded, then made on the
    global detector, which keeps the model it may have loaded. *)
Definition call_predict (t : tf) (image : ndarray spec_float) : Route (dict value) :=
  fun s =>
    let (r, d) := predict t (disease_detector s) image in
    (r, {| disease_detector := d; calls := calls s ++ [predict_call image] |}).

(** [try: body except Exception as e: handler e] in a handler. *)
Definition try_route {A} (body : Route A) (handler : exn -> Route A) : Route A :=
  fun s =>
    match body s with
    | (Return a, s') => (Return a, s')
    | (Raise e, s') => handler e s'
    end.

Definition is_finite (x : spec_float) : bool :=
  match x with
  | S754_zero _ | S754_finite _ _ _ => true
  | _ => false
  end.

(** [float(v)] of a value of a prediction. *)
Definition float_of_value (v : value) : result value :=
  match v with
  | VFloat x => Return (VFloat (Float.float x))
  | _ => Raise (ValueError "float() argument must be a string or a real number")
  end.

(** [JSONResponse(content=...)] renders its content at once, and JSON has
    no NaN and no infinity. *)
Definition JSONResponse_init (content : dict value) : result JSONResponse :=
  if forallb (fun kv => match snd kv with VFloat x => is_finite x | _ => true end) content
  then Return {| content := content |}
  else Raise (ValueError "Out of range float values are not JSON compliant").

(** The response built from a prediction. *)
Definition respond (prediction : dict value) : result JSONResponse :=
  disease <- dict_getitem prediction "disease" ;;
  confidence <- dict_getitem prediction "confidence" ;;
  confidence <- float_of_value confidence ;;
  recommendations <- dict_getitem prediction "recommendations" ;;
  let response :=
    [ ("disease", disease);
      ("confidence", confidence);
      ("recommendations", recommendations) ] in
  JSONResponse_init response.

Declare Scope route_scope.
Delimit Scope route_scope with route.
Notation "x <- c ;; k" := (and_then c (fun x => k))
  (at level 61, c at next level, right associativity) : route_scope.

Section Routes.
Variable t : tf.
Variable pil : PIL.
Variable image_processor : ImageProcessor.ImageProcessor.

(** [startup_event]: a failure to load the model is logged, not raised. *)
Definition startup_event : Route unit :=
  fun s =>
    match load_model t (disease_detector s) with
    | (Return _, d) => (Return tt, {| disease_detector := d; calls := calls s |})
    | (Raise _, d) => (Return tt, {| disease_detector := d; calls := calls s |})
    end.

(** The body of the [try] of [detect_disease]. *)
Definition detect_disease_try (file : UploadFile) : Route JSONResponse :=
  match content_type file with
  | None => throw (AttributeError "'NoneType' object has no attribute 'startswith'")
  | Some ct =>
      if negb (String.prefix "image/" ct) then
        throw (HTTPException 400 "File must be an image")
      else
        (let contents := contents file in
         image <- call (Image_open_call contents) (Image_open pil contents) ;;
         image <- (if negb (mode_eqb (mode image) RGB)
                   then call (convert_call image RGB) (convert pil image RGB)
                   else ret image) ;;
         processed_image <-
           call (preprocess_image_call image)
                (ImageProcessor.preprocess_image pil image_processor image) ;;
         prediction <- call_predict t processed_image ;;
         fun s => (respond prediction, s))%route
  end.

Definition detect_disease (file : UploadFile) : Route JSONResponse :=
  try_route (detect_disease_try file)
    (fun e => throw (HTTPException 500 ("Error processing image: " ++ str e))).

End Routes.

(** The module as imported: both components constructed, nothing called. *)
Definition initial : App :=
  {| disease_detector := DiseaseDetector.__init__ None; calls := [] |}.

Definition image_processor : ImageProcessor.ImageProcessor := ImageProcessor.__init__.

End Main.

(** * The vocabulary of the properties *)

Module Spec.

Import Float DiseaseDetector Main.

(** ** Normalizer *)

(** What [astype(np.float32) / 255.0] makes of one sample. *)
Definition scaled (b : byte) : spec_float :=
  f32_div (f32_of_Z (Z.of_N (Byte.to_N b))) (f32_of_Z 255).


(** A binary32 number between 0 and 1. *)
Definition unit_float32 (x : spec_float) : Prop :=
  is_f32 x = true /\ le (f32_of_Z 0) x = true /\ le x (f32_of_Z 1) = true.


(** ** Quality gate: the verdicts' messages *)

Definition too_small : string := "Image too small. Minimum size: 100x100".
Definition too_dark : string := "Image too dark. Please use better lighting.".
Definition too_bright : string := "Image too bright. Please reduce lighting.".
Definition blurry : string := "Image appears blurry. Please take a clearer photo.".
Definition acceptable : string := "Image quality is acceptable".
Definition not_validated : string := "Could not validate image quality, proceeding anyway".

(** ** Orchestrator *)

(** [p], at index [k] of [l], is a maximum of [l], and the first one. *)
Definition first_maximum (l : list spec_float) (k : nat) (p : spec_float) : Prop :=
  nth_error l k = Some p
  /\ (forall x, In x l -> le x p = true)
  /\ (forall j x, j < k -> nth_error l j = Some x -> lt x p = true).

Definition no_nan (l : list spec_float) : Prop := Forall (fun x => is_nan x = false) l.

(** The label to probability pairs a result carries: those under
    ["all_predictions"], none when the key is not there. *)
Definition distribution_of (r : dict value) : dict spec_float :=
  match dict_lookup r "all_predictions" with
  | Some (VDict d) => d
  | _ => []
  end.

(** ** Pipeline *)

(** What the [except] of [detect_disease] makes of an exception. *)
Definition internal_error (e : exn) : exn :=
  HTTPException 500 ("Error processing image: " ++ str e).

(** The calls on the quality gate and the enhancer. *)
Definition gate_or_enhancer (c : Call) : bool :=
  match c with
  | validate_image_quality_call _ | enhance_image_call _ | detect_leaf_regions_call _ => true
  | _ => false
  end.

(** The calls on the quality gate and the normalizer. *)
Definition gate_or_normalizer (c : Call) : bool :=
  match c with
  | validate_image_quality_call _ | preprocess_image_call _ => true
  | _ => false
  end.

(** The image handed to the normalizer: the decoded one, through
    [convert('RGB')] unless it is RGB already. *)
Definition as_rgb (pil : PIL) (image : Image) : result Image :=
  if negb (mode_eqb (mode image) RGB) then convert pil image RGB else Return image.

Definition as_rgb_calls (image : Image) : list Call :=
  if negb (mode_eqb (mode image) RGB) then [convert_call image RGB] else [].

(** The calls of the route on an upload that decodes and normalizes. *)
Definition decoded_calls (file : UploadFile) (image rgb : Image)
    (tensor : ndarray spec_float) : list Call :=
  Image_open_call (contents file) :: as_rgb_calls image
  ++ [preprocess_image_call rgb; predict_call tensor].

End Spec.

(** ** Stand-ins for the collaborators

    Small computable versions of Pillow, OpenCV, NumPy's variance and
    TensorFlow, on which the program runs inside Rocq. *)

Module Stub.

Import Float DiseaseDetector Main.

Definition nat_of_byte (b : byte) : nat := N.to_nat (Byte.to_N b).

(** A raw format: width, height, then the samples of an RGB, an LA or an L
    image, told apart by their number. *)
Definition open (bytes : list byte) : result Image :=
  match bytes with
  | w :: h :: samples =>
      let w := nat_of_byte w in
      let h := nat_of_byte h in
      if (w =? 0) || (h =? 0) then Raise (LibError "PIL" "cannot identify image file")
      else if length samples =? h * w * 3 then Return (mk_Image RGB w h samples)
      else if length samples =? h * w * 2 then Return (mk_Image LA w h samples)
      else if length samples =? h * w then Return (mk_Image L w h samples)
      else Raise (LibError "PIL" "cannot identify image file")
  | _ => Raise (LibError "PIL" "cannot identify image file")
  end.

(** Luminance as the green sample; grey to RGB by repetition. *)
Definition convert (im : Image) (m : Mode) : result Image :=
  let n := height im * width im in
  match mode im, m with
  | L, L | RGB, RGB => Return im
  | RGB, L => Return (mk_Image L (width im) (height im)
                        (take_channels 1 3 n (skipn 1 (pixels im))))
  | L, RGB => Return (mk_Image RGB (width im) (height im)
                        (flat_map (fun x => [x; x; x]) (pixels im)))
  | LA, RGB => Return (mk_Image RGB (width im) (height im)
                         (flat_map (fun x => [x; x; x]) (take_channels 1 2 n (pixels im))))
  | _, _ => Raise (ValueError "conversion not supported")
  end.

(** Nearest-neighbour resampling, whatever the filter asked for. *)
Definition resize (im : Image) (size : nat * nat) (filter : Resampling) : result Image :=
  let (w, h) := size in
  let c := bands (mode im) in
  if (width im =? 0) || (height im =? 0) then Raise (ValueError "image has no pixels")
  else
    Return (mk_Image (mode im) w h
      (flat_map (fun y =>
         flat_map (fun x =>
           map (fun k =>
                  nth ((y * height im / h * width im + x * width im / w) * c + k)
                      (pixels im) x00)
               (seq 0 c))
           (seq 0 w))
         (seq 0 h))).

Definition pil : PIL := Build_PIL open convert resize.

(** OpenCV on three-channel arrays only; a conversion to grey keeps the
    green plane, any other returns the array; CLAHE, the mask and the
    morphology change nothing; the Laplacian is the array as [float64]. *)
Definition cvtColor (a : ndarray byte) (code : ColorConversion) : result (ndarray byte) :=
  match shape a with
  | [h; w; 3] =>
      match code with
      | COLOR_RGB2GRAY =>
          Return (mk_ndarray [h; w] (take_channels 1 3 (h * w) (skipn 1 (data a))))
      | _ => Return a
      end
  | _ => Raise (LibError "cv2" "Invalid number of channels in input image")
  end.

Definition inRange (a : ndarray byte) (lower upper : list nat) : result (ndarray byte) :=
  match shape a with
  | [h; w; 3] => Return (mk_ndarray [h; w] (repeat xff (h * w)))
  | _ => Raise (LibError "cv2" "Invalid number of channels in input image")
  end.

Definition Laplacian (a : ndarray byte) (d : Depth) : result (ndarray spec_float) :=
  Return (mk_ndarray (shape a) (map (fun b => f64_of_Z (Z.of_N (Byte.to_N b))) (data a))).

Definition cv : cv2 :=
  Build_cv2 cvtColor
    (fun clip tiles => Return {| apply := fun plane => Return plane |})
    inRange
    (fun mask op kernel => Return mask)
    Laplacian.

(** No variance on a constant array, 2500 on any other. *)
Definition var (a : ndarray spec_float) : spec_float :=
  match data a with
  | [] => S754_nan
  | x :: rest => if forallb (SFeqb x) rest then S754_zero false else f64_of_Z 2500
  end.

Definition npy : numpy := Build_numpy var.

(** [n / d] as Python reads the decimal literal: the nearest binary64. *)
Definition decimal (n d : Z) : spec_float := f64_div (f64_of_Z n) (f64_of_Z d).

(** The distribution [[0.7, 0.1, 0.05, ...]] of the classifier stub. *)
Definition distribution : list spec_float :=
  [ decimal 7 10; decimal 1 10; decimal 5 100; decimal 5 100; decimal 2 100;
    decimal 2 100; decimal 2 100; decimal 2 100; decimal 1 100; decimal 1 100 ].

(** A classifier that answers [distribution] on a batch of one 224x224 RGB
    tensor and refuses any other input. *)
Definition classifier : Model :=
  {| model_predict := fun batch =>
       if shape_eqb (shape batch) [1; 224; 224; 3] then Return [distribution]
       else Raise (LibError "tensorflow" "Input 0 is incompatible with the layer") |}.

(** No stored model; the demo network is [classifier]. *)
Definition tensorflow : tf :=
  {| os_path_exists := fun _ => false;
     keras_load_model := fun _ => Raise (LibError "tensorflow" "No file or directory found");
     keras_Sequential := fun _ => Return classifier |}.

(** A TensorFlow that cannot build any network. *)
Definition no_tensorflow : tf :=
  {| os_path_exists := fun _ => false;
     keras_load_model := fun _ => Raise (LibError "tensorflow" "No file or directory found");
     keras_Sequential := fun _ => Raise (LibError "tensorflow" "OOM when allocating tensor") |}.

(** The detector once [classifier] is loaded. *)
Definition loaded : DiseaseDetector := set_model (DiseaseDetector.__init__ None) classifier.

(** Images: one grey and one luminance-alpha pixel, a single RGB pixel, and
    two 100x100 images of alternating dark and light pixels. *)
Definition grey_pixel : Image := mk_Image L 1 1 [x80].
Definition la_pixel : Image := mk_Image LA 1 1 [x80; xff].
Definition rgb_pixel : Image := mk_Image RGB 1 1 [x20; x80; x40].

Definition checker_rgb : Image :=
  mk_Image RGB 100 100
    (flat_map (fun i => if Nat.even i then [x40; x40; x40] else [xc0; xc0; xc0])
              (seq 0 (100 * 100))).

Definition checker_grey : Image :=
  mk_Image L 100 100 (map (fun i => if Nat.even i then x40 else xc0) (seq 0 (100 * 100))).

(** The checkerboard in poor light, and its luminance plane. *)
Definition checker_dark : Image :=
  mk_Image RGB 100 100
    (flat_map (fun i => if Nat.even i then [x08; x08; x08] else [x18; x18; x18])
              (seq 0 (100 * 100))).

Definition checker_dark_grey : Image :=
  mk_Image L 100 100 (map (fun i => if Nat.even i then x08 else x18) (seq 0 (100 * 100))).

Definition narrow : Image := mk_Image L 99 150 (repeat x80 (150 * 99)).

Definition resized (im : Image) : Image :=
  match resize im (224, 224) LANCZOS with
  | Return out => out
  | Raise _ => im
  end.




(** Uploads: the RGB pixel in the raw format, and no bytes at all. *)
Definition pixel_upload : UploadFile :=
  {| content_type := Some "image/png"; contents := [x01; x01; x20; x80; x40] |}.

Definition empty_upload : UploadFile :=
  {| content_type := Some "image/png"; contents := [] |}.

Definition text_upload : UploadFile :=
  {| content_type := Some "text/plain"; contents := [x68; x69] |}.

(** An image without pixels. *)
Definition no_pixels : Image := mk_Image L 0 0 [].

(** The tensors [preprocess_image] makes of the RGB pixel and of the
    luminance-alpha pixel. *)
Definition pixel_tensor : ndarray spec_float :=
  div_scalar_f32 (astype_float32 (to_array (resized rgb_pixel))) 255.

Definition la_tensor : ndarray spec_float :=
  div_scalar_f32 (astype_float32 (to_array (resized la_pixel))) 255.

End Stub.

(** ** main.py: the other routes *)

Module Endpoints.

Import DiseaseDetector Main.

(** The answer of [/health]. *)
Record Health : Type := {
  status : string;
  model_loaded : bool;
  version : string
}.

(** [root]: the answer of [/]. *)
Definition root : dict value :=
  [ ("message", VStr "Plant Disease Detector API is running") ].

(** [health_check] *)
Definition health_check (s : App) : Health :=
  {| status := "healthy";
     model_loaded := is_loaded (disease_detector s);
     version := "1.0.0" |}.

(** [get_supported_diseases]: the answer of [/api/diseases]. *)
Definition get_supported_diseases (s : App) : dict (list string) :=
  [ ("diseases", DiseaseDetector.get_supported_diseases (disease_detector s)) ].

End Endpoints.

(** ** More stand-ins *)

Module Fixtures.

Import Float DiseaseDetector Main.

(** A classifier trained on three classes only. *)
Definition three_class_classifier : Model :=
  {| model_predict := fun batch =>
       Return [[Stub.decimal 7 10; Stub.decimal 2 10; Stub.decimal 1 10]] |}.

(** A classifier that fails on every input. *)
Definition failing_classifier : Model :=
  {| model_predict := fun batch =>
       Raise (LibError "tensorflow" "Graph execution error") |}.

Definition with_model (m : Model) : tf :=
  {| os_path_exists := fun _ => true;
     keras_load_model := fun _ => Return m;
     keras_Sequential := fun _ => Return Stub.classifier |}.

(** An OpenCV whose green mask keeps the pixels with a green sample of at
    least 64. *)
Fixpoint green_mask (n : nat) (samples : list byte) : list byte :=
  match n with
  | O => []
  | S n' =>
      (if (64 <=? Stub.nat_of_byte (nth 1 samples x00)) then xff else x00)
      :: green_mask n' (skipn 3 samples)
  end.

Definition inRange (a : ndarray byte) (lower upper : list nat) : result (ndarray byte) :=
  match shape a with
  | [h; w; 3] => Return (mk_ndarray [h; w] (green_mask (h * w) (data a)))
  | _ => Raise (LibError "cv2" "Invalid number of channels in input image")
  end.

Definition masking_cv : cv2 :=
  Build_cv2 Stub.cvtColor
    (fun clip tiles => Return {| apply := fun plane => Return plane |})
    inRange
    (fun mask op kernel => Return mask)
    Stub.Laplacian.

(** A leaf-green pixel beside a dark one. *)
Definition two_pixels : Image :=
  mk_Image RGB 2 1 [x20; x80; x40; x10; x10; x10].

End Fixtures.

(** ** More vocabulary *)

Module Checks.

Import Float DiseaseDetector.

(** The scale on the numbers below 256. *)
Definition scaled_nat (n : nat) : spec_float :=
  f32_div (f32_of_Z (Z.of_nat n)) (f32_of_Z 255).

(** Whether each number below 255 scales below its successor. *)
Definition increasing_below_256 : bool :=
  forallb (fun i => lt (scaled_nat i) (scaled_nat (S i))) (seq 0 255).

(** The channels of the tensor of an image of [c] channels. *)
Definition channels_out (c : nat) : nat :=
  if c =? 1 then 3 else if c =? 4 then 3 else c.

(** A classifier that cannot decide: ten times 0.1. *)
Definition undecided_classifier : Model :=
  {| model_predict := fun batch => Return [repeat (Stub.decimal 1 10) 10] |}.

End Checks.

(** * Properties *)

(** ** Floating-point comparison *)

Module FloatFacts.

Import Float.

Ltac cases_compare :=
  repeat match goal with
  | |- context [Pos.compare_cont Eq ?a ?b] =>
      change (Pos.compare_cont Eq a b) with (Pos.compare a b)
  | H : context [Pos.compare_cont Eq ?a ?b] |- _ =>
      change (Pos.compare_cont Eq a b) with (Pos.compare a b) in H
  end;
  repeat match goal with
  | H : context [Z.compare ?a ?b] |- _ => destruct (Z.compare_spec a b)
  | |- context [Z.compare ?a ?b] => destruct (Z.compare_spec a b)
  | H : context [Pos.compare ?a ?b] |- _ => destruct (Pos.compare_spec a b)
  | |- context [Pos.compare ?a ?b] => destruct (Pos.compare_spec a b)
  end;
  subst; simpl in *; try discriminate; try reflexivity; try lia.

Lemma compare_antisym (x y : spec_float) :
  SFcompare x y = option_map CompOpp (SFcompare y x).
Proof.
  destruct x as [sx|sx| |sx mx ex], y as [sy|sy| |sy my ey]; simpl;
    try reflexivity;
    try (destruct sx; reflexivity); try (destruct sy; reflexivity);
    try (destruct sx, sy; reflexivity).
  destruct sx, sy; simpl; try reflexivity; f_equal; cases_compare.
Qed.

Lemma le_lt_trans (x y z : spec_float) :
  le x y = true -> lt y z = true -> lt x z = true.
Proof.
  unfold lt, le, SFltb, SFleb.
  destruct x as [sx|sx| |sx mx ex], y as [sy|sy| |sy my ey], z as [sz|sz| |sz mz ez];
    simpl; try discriminate; try reflexivity;
    try (destruct sx); try (destruct sy); try (destruct sz);
    simpl; try discriminate; try reflexivity; intros Hxy Hyz; cases_compare.
Qed.

Lemma lt_le (x y : spec_float) : lt x y = true -> le x y = true.
Proof.
  unfold lt, le, SFltb, SFleb. destruct (SFcompare x y) as [[ | | ]|]; congruence.
Qed.

(** Two numbers are comparable: what is not [<=] is [>]. *)
Lemma not_le_gt (x y : spec_float) :
  is_nan x = false -> is_nan y = false -> le x y = false -> lt y x = true.
Proof.
  unfold le, lt, SFleb, SFltb. rewrite (compare_antisym y x).
  destruct x as [sx|sx| |sx mx ex], y as [sy|sy| |sy my ey]; simpl; try discriminate;
    intros _ _;
    try (destruct sx; simpl; congruence); try (destruct sy; simpl; congruence);
    try (destruct sx, sy; simpl; congruence).
  destruct sx, sy; simpl; try congruence;
    destruct (Z.compare ex ey); simpl; try congruence;
    destruct (Pos.compare_cont Eq mx my); simpl; congruence.
Qed.

(** [a <= x] excludes [x < a]. *)
Lemma le_not_gt (a x : spec_float) : le a x = true -> lt x a = false.
Proof.
  unfold le, lt, SFleb, SFltb. rewrite (compare_antisym x a).
  destruct (SFcompare a x) as [[ | | ]|]; simpl; congruence.
Qed.

Lemma le_refl (x : spec_float) : is_nan x = false -> le x x = true.
Proof.
  unfold le, SFleb.
  destruct x as [sx|sx| |sx mx ex]; simpl; try discriminate; intros _;
    try reflexivity; destruct sx; simpl; try reflexivity;
    rewrite Z.compare_refl;
    change (Pos.compare_cont Eq mx mx) with (Pos.compare mx mx);
    rewrite Pos.compare_refl; reflexivity.
Qed.


End FloatFacts.

(** ** Array operations *)

Module ArrayFacts.





End ArrayFacts.

(** ** The normalizer *)

Module Normalizer.

Import Float ImageProcessor ArrayFacts Spec.

Lemma scaled_unit (b : byte) : unit_float32 (scaled b).
Proof. destruct b; vm_compute; auto. Qed.

Lemma scaled_all_unit (l : list byte) : Forall unit_float32 (map scaled l).
Proof. apply Forall_map, Forall_forall. intros b _. apply scaled_unit. Qed.

Lemma scale_data (a : ndarray byte) :
  div_scalar_f32 (astype_float32 a) 255 = mk_ndarray (shape a) (map scaled (data a)).
Proof. unfold div_scalar_f32, astype_float32. simpl. now rewrite map_map. Qed.

(** [preprocess_image] once [resize] has returned [resized]. *)
Lemma preprocess_image_resized (pil : PIL) (self : ImageProcessor) (image resized : Image) :
  resize pil image (target_size self) LANCZOS = Return resized ->
  preprocess_image pil self image =
    try_except
      (img_array <- ensure_3_channels (to_array resized) ;;
       Return (div_scalar_f32 (astype_float32 img_array) 255))
      (fun e => Raise (ValueError ("Failed to preprocess image: " ++ str e))).
Proof. intros H. unfold preprocess_image. now rewrite H. Qed.

(** X2: a failed [resize] surfaces as the [ValueError] of
    [preprocess_image], with the message of the failure. *)
Theorem preprocess_image_resize_raises (pil : PIL) (self : ImageProcessor) (image : Image) e :
  resize pil image (target_size self) LANCZOS = Raise e ->
  preprocess_image pil self image =
    Raise (ValueError ("Failed to preprocess image: " ++ str e)).
Proof. intros H. unfold preprocess_image. now rewrite H. Qed.


(** C10: an image whose channel count is none of 1, 3 and 4 (a two-channel
    luminance and alpha image) keeps its channels: the tensor has shape
    (224, 224, c) with c the channel count, not 3, and holds every sample of
    the resized image scaled into [0, 1]. *)
Theorem preprocess_image_keeps_other_channel_counts (pil : PIL) (image resized : Image) :
  resize pil image (224, 224) LANCZOS = Return resized ->
  resized_to image (224, 224) resized ->
  bands (mode image) <> 1 -> bands (mode image) <> 3 -> bands (mode image) <> 4 ->
  exists tensor,
    preprocess_image pil ImageProcessor.__init__ image = Return tensor
    /\ shape tensor = [224; 224; bands (mode image)]
    /\ shape tensor <> [224; 224; 3]
    /\ length (data tensor) = 224 * 224 * bands (mode image)
    /\ data tensor = map scaled (pixels resized)
    /\ Forall unit_float32 (data tensor).
Proof.
  intros Hresize (Hwf & Hw & Hh & Hmode) H1 H3 H4.
  rewrite (preprocess_image_resized pil ImageProcessor.__init__ image resized Hresize).
  unfold well_formed in Hwf. simpl in Hw, Hh. rewrite Hw, Hh, Hmode in Hwf.
  unfold ensure_3_channels, to_array. rewrite Hmode, Hw, Hh.
  destruct (Nat.eqb_spec (bands (mode image)) 1) as [|_]; [contradiction|].
  cbn [shape length Nat.eqb nth_error].
  destruct (Nat.eqb_spec (bands (mode image)) 4) as [|_]; [contradiction|].
  cbn [bind try_except]. rewrite scale_data. cbn [shape data].
  eexists; split; [reflexivity|]. cbn [shape data].
  repeat split.
  - intros Heq. injection Heq as Heq. contradiction.
  - now rewrite length_map.
  - apply scaled_all_unit.
Qed.

End Normalizer.

(** ** The normalizer on images of deeper samples *)

Module DeepNormalizer.

Import Float Spec.




End DeepNormalizer.

(** ** The quality gate *)

Module QualityGate.

Import Float FloatFacts ImageProcessor Spec.

Section Gate.
Variable pil : PIL.
Variable cv : cv2.
Variable npy : numpy.

Lemma validate_of_try (image : Image) v :
  validate_image_quality_try pil cv npy image = Return v -> validate_image_quality pil cv npy image = Return v.
Proof. unfold validate_image_quality. now intros ->. Qed.

Lemma small_rejected (image : Image) :
  width image < 100 \/ height image < 100 ->
  validate_image_quality_try pil cv npy image = Return (false, too_small).
Proof.
  intros H. unfold validate_image_quality_try.
  replace ((width image <? 100) || (height image <? 100)) with true; [reflexivity|].
  symmetry. apply orb_true_iff. rewrite !Nat.ltb_lt. exact H.
Qed.

(** Past the resolution check the verdict is that of the two measurements. *)
Lemma large_enough (image : Image) :
  100 <= width image -> 100 <= height image ->
  validate_image_quality_try pil cv npy image =
    (m <- mean_brightness pil image ;;
     if lt m (f64_of_Z 30) then Return (false, too_dark)
     else if gt m (f64_of_Z 220) then Return (false, too_bright)
     else
       v <- laplacian_var cv npy image ;;
       if lt v (f64_of_Z 100) then Return (false, blurry)
       else Return (true, acceptable)).
Proof.
  intros Hw Hh. unfold validate_image_quality_try.
  replace ((width image <? 100) || (height image <? 100)) with false; [reflexivity|].
  symmetry. apply orb_false_iff. rewrite !Nat.ltb_ge. now split.
Qed.

Lemma bright_not_dark (m : spec_float) :
  gt m (f64_of_Z 220) = true -> lt m (f64_of_Z 30) = false.
Proof.
  unfold gt. intros H. apply le_not_gt, lt_le.
  apply le_lt_trans with (y := f64_of_Z 220); [reflexivity | exact H].
Qed.

(** C4: the three checks run in this order and stop at the first failure.
    An image narrower or lower than 100 is rejected as too small, whatever
    the other checks would say (so is a 99x150 one).  Otherwise the number
    compared with 30 and 220 is the mean of the samples of the image that
    [convert('L')] returned: below 30 or above 220 rejects the image,
    whatever the sharpness.  Otherwise the number compared with 100 is the
    variance of what [cv2.Laplacian] returned on the grey array that
    [cv2.cvtColor] made of the image: below 100 rejects it as blurry.  An
    image of at least 100x100 with mean luminance in [30, 220] and Laplacian
    variance at least 100 is accepted. *)
Theorem validate_image_quality_checks_in_order (image : Image) :
  (width image < 100 \/ height image < 100 ->
   validate_image_quality pil cv npy image = Return (false, too_small))
  /\ (width image = 99 -> height image = 150 ->
      validate_image_quality pil cv npy image = Return (false, "Image too small. Minimum size: 100x100"))
  /\ (100 <= width image -> 100 <= height image ->
      forall gray, convert pil image L = Return gray ->
        (lt (mean (to_array gray)) (f64_of_Z 30) = true ->
         validate_image_quality pil cv npy image
           = Return (false, "Image too dark. Please use better lighting."))
        /\ (gt (mean (to_array gray)) (f64_of_Z 220) = true ->
            validate_image_quality pil cv npy image
              = Return (false, "Image too bright. Please reduce lighting."))
        /\ (le (f64_of_Z 30) (mean (to_array gray)) = true ->
            le (mean (to_array gray)) (f64_of_Z 220) = true ->
            forall img_gray lap,
              cvtColor cv (to_array image) COLOR_RGB2GRAY = Return img_gray ->
              Laplacian cv img_gray CV_64F = Return lap ->
              (lt (var npy lap) (f64_of_Z 100) = true ->
               validate_image_quality pil cv npy image
                 = Return (false, "Image appears blurry. Please take a clearer photo."))
              /\ (le (f64_of_Z 100) (var npy lap) = true ->
                  validate_image_quality pil cv npy image
                    = Return (true, "Image quality is acceptable")))).
Proof.
  split; [| split].
  - intros H. apply validate_of_try, small_rejected, H.
  - intros Hw Hh. apply validate_of_try, small_rejected. lia.
  - intros Hw Hh gray Hgray.
    assert (Hbody := large_enough image Hw Hh).
    unfold mean_brightness in Hbody. rewrite Hgray in Hbody. cbn [bind] in Hbody.
    split; [| split].
    + intros Hdark. apply validate_of_try. rewrite Hbody. now rewrite Hdark.
    + intros Hbright. apply validate_of_try. rewrite Hbody.
      now rewrite (bright_not_dark _ Hbright), Hbright.
    + intros Hlo Hhi img_gray lap Hcvt Hlap.
      assert (Hnd : lt (mean (to_array gray)) (f64_of_Z 30) = false) by now apply le_not_gt.
      assert (Hnb : gt (mean (to_array gray)) (f64_of_Z 220) = false) by now apply le_not_gt.
      rewrite Hnd, Hnb in Hbody.
      unfold laplacian_var in Hbody. rewrite Hcvt in Hbody. cbn [bind] in Hbody.
      rewrite Hlap in Hbody. cbn [bind] in Hbody.
      split.
      * intros Hblur. apply validate_of_try. rewrite Hbody. now rewrite Hblur.
      * intros Hsharp. apply validate_of_try. rewrite Hbody.
        now rewrite (le_not_gt _ _ Hsharp).
Qed.

(** C5: [validate_image_quality] returns a verdict on every image and never
    raises.  When a check cannot be computed (the [try] body raises: the
    luminance conversion or the Laplacian fails), the verdict is accepted,
    with the message that validation could not be performed. *)
Theorem validate_image_quality_never_raises (image : Image) :
  (exists accepted message,
     validate_image_quality pil cv npy image = Return (accepted, message))
  /\ (forall e, validate_image_quality_try pil cv npy image = Raise e ->
      validate_image_quality pil cv npy image = Return (true, not_validated))
  /\ (100 <= width image -> 100 <= height image ->
      forall e, mean_brightness pil image = Raise e ->
      validate_image_quality pil cv npy image = Return (true, "Could not validate image quality, proceeding anyway"))
  /\ (100 <= width image -> 100 <= height image ->
      forall m e, mean_brightness pil image = Return m ->
      le (f64_of_Z 30) m = true -> le m (f64_of_Z 220) = true ->
      laplacian_var cv npy image = Raise e ->
      validate_image_quality pil cv npy image = Return (true, not_validated)).
Proof.
  repeat split.
  - unfold validate_image_quality.
    destruct (validate_image_quality_try pil cv npy image) as [[accepted message]|e];
      cbn [try_except]; eauto.
  - intros e He. unfold validate_image_quality. now rewrite He.
  - intros Hw Hh e He. unfold validate_image_quality.
    now rewrite large_enough, He by assumption.
  - intros Hw Hh m e Hm Hlo Hhi He. unfold validate_image_quality.
    rewrite large_enough, Hm by assumption. cbn [bind].
    assert (Hnd : lt m (f64_of_Z 30) = false) by now apply le_not_gt.
    assert (Hnb : gt m (f64_of_Z 220) = false) by now apply le_not_gt.
    now rewrite Hnd, Hnb, He.
Qed.

End Gate.

End QualityGate.

(** ** The enhancer *)

Module Enhancer.

Import ImageProcessor.

(** C7: neither transform raises: each returns an image for every input,
    and when anything inside it fails (the [try] body raises, as when
    OpenCV refuses the first colour conversion) the image returned is the
    input itself. *)
Theorem enhancer_returns_original_on_failure (cv : cv2) (image : Image) :
  (exists out, enhance_image cv image = Return out)
  /\ (forall e, enhance_image_try cv image = Raise e ->
      enhance_image cv image = Return image)
  /\ (forall e, cvtColor cv (to_array image) COLOR_RGB2BGR = Raise e ->
      enhance_image cv image = Return image)
  /\ (exists out, detect_leaf_regions cv image = Return out)
  /\ (forall e, detect_leaf_regions_try cv image = Raise e ->
      detect_leaf_regions cv image = Return image)
  /\ (forall e, cvtColor cv (to_array image) COLOR_RGB2HSV = Raise e ->
      detect_leaf_regions cv image = Return image).
Proof.
  repeat split.
  - unfold enhance_image.
    destruct (enhance_image_try cv image) as [out|e]; cbn [try_except]; eauto.
  - intros e He. unfold enhance_image. now rewrite He.
  - intros e He. unfold enhance_image, enhance_image_try. now rewrite He.
  - unfold detect_leaf_regions.
    destruct (detect_leaf_regions_try cv image) as [out|e]; cbn [try_except]; eauto.
  - intros e He. unfold detect_leaf_regions. now rewrite He.
  - intros e He. unfold detect_leaf_regions, detect_leaf_regions_try. now rewrite He.
Qed.

End Enhancer.

(** ** The prediction orchestrator *)

Module Orchestrator.

Import Float FloatFacts DiseaseDetector Spec.

(** *** [np.argmax] *)

Lemma argmax_scan_first_maximum (l pre : list spec_float) (mp : spec_float) (mi : nat) :
  no_nan (pre ++ l) ->
  first_maximum pre mi mp ->
  exists p, first_maximum (pre ++ l) (argmax_scan mp mi (length pre) l) p.
Proof.
  revert pre mp mi. induction l as [|x l IH]; intros pre mp mi Hnan (Hnth & Hmax & Hfirst).
  - rewrite app_nil_r. exists mp. now repeat split.
  - assert (Hmp : is_nan mp = false).
    { apply nth_error_In in Hnth. unfold no_nan in Hnan. rewrite Forall_forall in Hnan.
      apply Hnan, in_or_app. now left. }
    assert (Hx : is_nan x = false).
    { unfold no_nan in Hnan. rewrite Forall_forall in Hnan.
      apply Hnan, in_or_app. right. now left. }
    cbn [argmax_scan]. rewrite Hmp.
    replace (pre ++ x :: l) with ((pre ++ [x]) ++ l) in * by now rewrite <- app_assoc.
    replace (S (length pre)) with (length (pre ++ [x])) by (rewrite length_app; simpl; lia).
    destruct (le x mp) eqn:Hle.
    + apply IH; [assumption|]. repeat split.
      * rewrite nth_error_app1; [assumption|]. apply nth_error_Some. congruence.
      * intros y Hy. apply in_app_or in Hy. destruct Hy as [Hy | [<- | []]]; auto.
      * intros j y Hj Hy. apply (Hfirst j y Hj).
        rewrite nth_error_app1 in Hy; [assumption|].
        assert (mi < length pre) by (apply nth_error_Some; congruence). lia.
    + assert (Hlt : lt mp x = true) by now apply not_le_gt.
      apply IH; [assumption|]. repeat split.
      * rewrite nth_error_app2 by lia. now rewrite Nat.sub_diag.
      * intros y Hy. apply in_app_or in Hy. destruct Hy as [Hy | [<- | []]].
        -- apply lt_le, le_lt_trans with (y := mp); auto.
        -- now apply le_refl.
      * intros j y Hj Hy. rewrite nth_error_app1 in Hy by assumption.
        apply le_lt_trans with (y := mp); [| assumption].
        apply Hmax. eapply nth_error_In, Hy.
Qed.

(** On a row without NaN, [np.argmax] is the index of the first maximum. *)
Lemma argmax_first_maximum (row : list spec_float) :
  row <> [] -> no_nan row ->
  exists k p, argmax row = Return k /\ first_maximum row k p.
Proof.
  destruct row as [|x t]; [congruence|]. intros _ Hnan.
  destruct (argmax_scan_first_maximum t [x] x 0) as (p & Hp).
  - exact Hnan.
  - repeat split.
    + intros y [<- | []]. apply le_refl. now inversion Hnan.
    + intros j y Hj. lia.
  - exists (argmax_scan x 0 1 t), p. split; [reflexivity | exact Hp].
Qed.

(** *** The label to probability mapping *)

Lemma dict_set_fresh {V} (d : dict V) (k : string) (v : V) :
  ~ In k (map fst d) -> dict_set d k v = d ++ [(k, v)].
Proof.
  induction d as [|[k' v'] d IH]; intros Hk; [reflexivity|]. simpl in *.
  destruct (String.eqb_spec k k') as [->|_]; [tauto|].
  rewrite IH; [reflexivity | tauto].
Qed.

Lemma combine_keys {A B} (l : list A) (l' : list B) (a : A) :
  In a (map fst (combine l l')) -> In a l.
Proof.
  revert l'. induction l as [|x l IH]; intros [|y l']; simpl; try tauto.
  intros [-> | H]; [now left | right; eauto].
Qed.

Lemma combine_snoc {A B} (l : list A) (l' : list B) (a : A) (b : B) :
  length l = length l' -> combine (l ++ [a]) (l' ++ [b]) = combine l l' ++ [(a, b)].
Proof.
  revert l'. induction l as [|x l IH]; intros [|y l'] Hlen; try discriminate.
  - reflexivity.
  - simpl. f_equal. apply IH. now injection Hlen.
Qed.

Lemma all_predictions_combine (self : DiseaseDetector)
    (todo done : list string) (rtodo rdone : list spec_float) :
  class_names self = done ++ todo ->
  NoDup (class_names self) ->
  length done = length rdone ->
  length todo = length rtodo ->
  all_predictions self (rdone ++ rtodo) (seq (length done) (length todo))
    (combine done (map float rdone))
  = Return (combine (done ++ todo) (map float (rdone ++ rtodo))).
Proof.
  revert done rtodo rdone.
  induction todo as [|name todo IH]; intros done rtodo rdone Hnames Hdup Hdone Htodo.
  - destruct rtodo; [|discriminate]. now rewrite !app_nil_r.
  - destruct rtodo as [|p rtodo]; [discriminate|].
    specialize (IH (done ++ [name]) rtodo (rdone ++ [p])).
    rewrite <- !app_assoc, !length_app, (map_app float rdone [p]) in IH.
    cbn [app length map] in IH.
    rewrite combine_snoc, !Nat.add_1_r in IH by now rewrite length_map.
    cbn [length seq all_predictions]. unfold getitem.
    rewrite Hnames, nth_error_app2, Nat.sub_diag by lia. cbn [nth_error bind].
    rewrite Hdone, nth_error_app2, Nat.sub_diag by lia. cbn [nth_error bind].
    rewrite dict_set_fresh.
    + rewrite <- Hdone. apply IH.
      * assumption.
      * assumption.
      * lia.
      * simpl in Htodo. lia.
    + intros Hin. apply combine_keys in Hin.
      rewrite Hnames in Hdup. apply NoDup_remove_2 in Hdup.
      apply Hdup, in_or_app. now left.
Qed.

Lemma all_predictions_full (self : DiseaseDetector) (row : list spec_float) :
  NoDup (class_names self) ->
  length row = length (class_names self) ->
  all_predictions self row (seq 0 (length (class_names self))) []
  = Return (combine (class_names self) (map float row)).
Proof.
  intros Hdup Hlen.
  apply (all_predictions_combine self (class_names self) [] row []); auto.
Qed.

(** *** [predict] *)

Section Predict.
Variable t : tf.

Lemma predict_of_try (self self' : DiseaseDetector) (image : ndarray spec_float) :
  ensure_model t self = (Return tt, self') ->
  predict t self image =
    (try_except (predict_try self' image) (fun _ => Return fallback), self').
Proof. intros H. unfold predict. now rewrite H. Qed.

(** After [ensure_model] the detector has a model. *)
Lemma ensure_model_loaded (self self' : DiseaseDetector) u :
  ensure_model t self = (Return u, self') -> exists m, model self' = Some m.
Proof.
  unfold ensure_model, load_model.
  destruct (model self) as [m|] eqn:Hm.
  - intros H. injection H as _ <-. eauto.
  - destruct (if os_path_exists t (model_path self) then _ else _) as [m|e].
    + intros H. injection H as _ <-. simpl. eauto.
    + destruct (_create_demo_model t self) as [m|e'].
      * intros H. injection H as _ <-. simpl. eauto.
      * discriminate.
Qed.

(** X1: [load_model] is called before the [try] of [predict]: when the
    model is not there, no stored model exists and the demo network cannot
    be built, [predict] raises TensorFlow's exception and the detector stays
    without a model. *)
Theorem predict_raises_when_no_model_can_be_built
    (self : DiseaseDetector) (image : ndarray spec_float) (e : exn) :
  model self = None ->
  os_path_exists t (model_path self) = false ->
  keras_Sequential t (length (class_names self)) = Raise e ->
  predict t self image = (Raise e, self).
Proof.
  intros Hnone Hpath Hdemo.
  unfold predict, ensure_model, load_model, _create_demo_model.
  now rewrite Hnone, Hpath, Hdemo.
Qed.

(** C1, amended: the fallback covers what the [try] of [predict] raises, not
    the loading of the model, which is called before the [try].  When the
    model is there as the [try] starts (the detector was ready, or
    [load_model] returned; [self'] is the detector then), whatever the
    [try] raises, the model's own [predict] among the rest, the caller gets
    the fallback and no exception: "Analysis Failed", confidence 0.0 and the
    three fixed guidance strings, under the keys "disease", "confidence" and
    "recommendations" only.  The fallback holds no distribution at all:
    there is no ["all_predictions"] key, and reading it raises [KeyError].
    A ready detector returns a result on every image.  When the detector is
    unready and [load_model] raises, [predict] raises that exception and
    returns no fallback. *)
Theorem predict_failure_gives_fallback (self : DiseaseDetector) (image : ndarray spec_float) :
  (forall self', ensure_model t self = (Return tt, self') ->
     (forall e, predict_try self' image = Raise e ->
        predict t self image = (Return fallback, self'))
     /\ (forall m e, model self' = Some m ->
          model_predict m (add_batch_dimension image) = Raise e ->
          predict t self image = (Return fallback, self'))
     /\ (exists r, predict t self image = (Return r, self')))
  /\ (forall m, model self = Some m -> exists r, predict t self image = (Return r, self))
  /\ (forall e, model self = None -> load_model t self = (Raise e, self) ->
       predict t self image = (Raise e, self))
  /\ (forall e self', ensure_model t self = (Raise e, self') ->
       model self = None /\ self' = self /\ predict t self image = (Raise e, self))
  /\ dict_lookup fallback "disease" = Some (VStr "Analysis Failed")
  /\ dict_lookup fallback "confidence" = Some (VFloat (f64_of_Z 0))
  /\ dict_lookup fallback "recommendations" =
       Some (VList [ "Unable to analyze image. Please try again with a clearer image.";
                     "Ensure the image shows a clear view of plant leaves.";
                     "Contact support if the problem persists." ])
  /\ map fst fallback = ["disease"; "confidence"; "recommendations"]
  /\ dict_lookup fallback "all_predictions" = None
  /\ dict_getitem fallback "all_predictions" = Raise (KeyError "all_predictions").
Proof.
  split; [| split; [| split; [| split]]].
  - intros self' Hload. rewrite (predict_of_try self self' image Hload).
    split; [| split].
    + intros e He. now rewrite He.
    + intros m e Hm He. unfold predict_try. now rewrite Hm, He.
    + destruct (predict_try self' image) as [r|e]; cbn [try_except]; eauto.
  - intros m Hm. unfold predict, ensure_model. rewrite Hm.
    destruct (predict_try self image) as [r|e]; cbn [try_except]; eauto.
  - intros e Hnone Hload. unfold predict, ensure_model. now rewrite Hnone, Hload.
  - intros e self' Hensure.
    assert (Hpredict : predict t self image = (Raise e, self'))
      by (unfold predict; now rewrite Hensure).
    unfold ensure_model, load_model in Hensure.
    destruct (model self) as [m|]; [discriminate|].
    destruct (if os_path_exists t (model_path self) then _ else _) as [m|e0];
      [discriminate|].
    destruct (_create_demo_model t self) as [m|e1]; [discriminate|].
    injection Hensure as _ <-. now repeat split.
  - repeat split.
Qed.

(** C6: on a successful inference over a row of one probability per class
    name, none of them NaN, [predict] returns the label at the index of the
    first maximum of the row, that maximum as the confidence, the
    recommendations looked up for the label, and a distribution that pairs
    every class name with its probability. *)
Theorem predict_returns_first_maximum
    (self self' : DiseaseDetector) (image : ndarray spec_float)
    (m : Model) (row : list spec_float) (rest : list (list spec_float)) :
  ensure_model t self = (Return tt, self') ->
  model self' = Some m ->
  model_predict m (add_batch_dimension image) = Return (row :: rest) ->
  class_names self' <> [] ->
  NoDup (class_names self') ->
  length row = length (class_names self') ->
  no_nan row ->
  exists k label p,
    argmax row = Return k
    /\ nth_error (class_names self') k = Some label
    /\ first_maximum row k p
    /\ predict t self image =
         (Return [ ("disease", VStr label);
                   ("confidence", VFloat (float p));
                   ("recommendations", VList (get_recommendations self' label));
                   ("all_predictions",
                    VDict (combine (class_names self') (map float row))) ],
          self').
Proof.
  intros Hload Hm Hpred Hnames Hdup Hlen Hnan.
  destruct (argmax_first_maximum row) as (k & p & Hk & Hmax); [| assumption |].
  { intros ->. destruct (class_names self'); [congruence | discriminate]. }
  assert (Hp : nth_error row k = Some p) by apply Hmax.
  destruct (nth_error (class_names self') k) as [label|] eqn:Hlabel.
  - exists k, label, p. repeat split; try assumption; try apply Hmax.
    rewrite (predict_of_try self self' image Hload).
    unfold predict_try. rewrite Hm, Hpred. cbn [bind getitem nth_error].
    rewrite Hk. cbn [bind]. unfold getitem. rewrite Hp, Hlabel. cbn [bind].
    rewrite all_predictions_full by assumption. reflexivity.
  - apply nth_error_None in Hlabel.
    assert (k < length row) by (apply nth_error_Some; congruence). lia.
Qed.

End Predict.

(** *** The recommendation table *)

(** C9: the lookup [predict] uses is a total function of the label: a
    label the table does not hold gets the default entry, the three-item
    consult-a-pathologist list, and every label, in the table or not, gets a
    non-empty list of strings. *)
Theorem recommendation_lookup_total (path : option string) (label : string) :
  (dict_lookup (recommendations (DiseaseDetector.__init__ path)) label = None ->
   get_recommendations (DiseaseDetector.__init__ path) label =
     [ "Consult with a plant pathologist for specific treatment advice.";
       "Monitor the plant closely for changes.";
       "Consider isolating the plant if symptoms worsen." ])
  /\ (forall advice,
        dict_lookup (recommendations (DiseaseDetector.__init__ path)) label = Some advice ->
        get_recommendations (DiseaseDetector.__init__ path) label = advice)
  /\ (~ In label (class_names (DiseaseDetector.__init__ path)) ->
       get_recommendations (DiseaseDetector.__init__ path) label = default_recommendations)
  /\ get_recommendations (DiseaseDetector.__init__ path) label <> []
  /\ (forall m,
        get_recommendations (set_model (DiseaseDetector.__init__ path) m) label =
        get_recommendations (DiseaseDetector.__init__ path) label).
Proof.
  unfold get_recommendations, dict_get.
  split; [| split; [| split; [| split]]].
  - now intros ->.
  - now intros advice ->.
  - cbn [recommendations class_names DiseaseDetector.__init__ dict_lookup In].
    intros Hnot.
    repeat match goal with
    | |- context [String.eqb label ?s] =>
        destruct (String.eqb_spec label s) as [Heq|_]; [exfalso; apply Hnot; subst; tauto|]
    end.
    reflexivity.
  - cbn [recommendations DiseaseDetector.__init__ dict_lookup].
    repeat match goal with
    | |- context [String.eqb label ?s] => destruct (String.eqb label s); [discriminate|]
    end.
    discriminate.
  - reflexivity.
Qed.

End Orchestrator.

(** ** The [/api/detect] pipeline *)

Module Pipeline.

Import DiseaseDetector Main Spec.

Lemma existsb_none {A} (f : A -> bool) (l : list A) :
  (forall x, In x l -> f x = false) -> existsb f l = false.
Proof.
  induction l as [|x l IH]; intros H; [reflexivity|]. simpl.
  rewrite (H x) by now left. apply IH. intros y Hy. apply H. now right.
Qed.

Section Detect.
Variable t : tf.
Variable pil : PIL.
Variable ip : ImageProcessor.ImageProcessor.

(** X3: an upload that is not declared as an image is refused before any
    decoding, and the refusal reaches the caller with status 500: the
    HTTPException of status 400 is raised inside the [try] and caught by its
    [except Exception]. *)
Theorem undeclared_image_is_internal_error (file : UploadFile) (s : App) (ct : string) :
  content_type file = Some ct ->
  String.prefix "image/" ct = false ->
  detect_disease t pil ip file s =
    (Raise (internal_error (HTTPException 400 "File must be an image")), s).
Proof.
  intros Hct Hprefix. unfold detect_disease, detect_disease_try, try_route.
  now rewrite Hct, Hprefix.
Qed.

(** C8: an upload whose bytes Pillow cannot decode ends in an error raised
    to the caller, the HTTPException of status 500 of the route, which for
    an upload declared as an image carries the decoder's message; no result
    is returned.  The only call made is [Image.open]: neither the quality
    gate nor the normalizer (nor the classifier) is called, and the
    detector is left as it was. *)
Theorem undecodable_upload_is_terminal (file : UploadFile) (s : App) (e : exn) :
  Image_open pil (contents file) = Raise e ->
  exists detail new,
    detect_disease t pil ip file s =
      (Raise (HTTPException 500 detail),
       {| disease_detector := disease_detector s; calls := calls s ++ new |})
    /\ (new = [] \/ new = [Image_open_call (contents file)])
    /\ existsb gate_or_normalizer new = false
    /\ (forall c, In c new -> gate_or_normalizer c = false)
    /\ (forall ct, content_type file = Some ct -> String.prefix "image/" ct = true ->
        detail = ("Error processing image: " ++ str e)%string
        /\ new = [Image_open_call (contents file)]).
Proof.
  intros Hopen. unfold detect_disease, detect_disease_try, try_route.
  destruct (content_type file) as [ct|].
  - destruct (String.prefix "image/" ct) eqn:Hct; cbn [negb].
    + unfold and_then at 1. unfold and_then at 1. unfold and_then at 1.
      unfold call at 1. rewrite Hopen. cbn [throw calls disease_detector].
      eexists _, [Image_open_call (contents file)]. split; [reflexivity|].
      repeat split; auto.
      intros c [<- | []]. reflexivity.
    + cbn [throw]. eexists _, []. rewrite app_nil_r. destruct s.
      split; [reflexivity|]. repeat split; auto; try easy; congruence.
  - cbn [throw]. eexists _, []. rewrite app_nil_r. destruct s.
    split; [reflexivity|]. repeat split; auto; try easy.
Qed.

Lemma decoded_calls_skip_gate (file : UploadFile) (image rgb : Image)
    (tensor : ndarray spec_float) (c : Call) :
  In c (decoded_calls file image rgb tensor) -> gate_or_enhancer c = false.
Proof.
  intros [<- | Hc]; [reflexivity|].
  apply in_app_or in Hc. destruct Hc as [Hc | [<- | [<- | []]]]; try reflexivity.
  unfold as_rgb_calls in Hc.
  destruct (negb (mode_eqb (mode image) RGB)); [| easy].
  destruct Hc as [<- | []]. reflexivity.
Qed.

(** The route on an upload declared as an image that decodes and
    normalizes: conversion, normalization, classification, response. *)
Lemma detect_disease_decoded
    (file : UploadFile) (s : App) (ct : string)
    (image rgb : Image) (tensor : ndarray spec_float) :
  content_type file = Some ct ->
  String.prefix "image/" ct = true ->
  Image_open pil (contents file) = Return image ->
  as_rgb pil image = Return rgb ->
  ImageProcessor.preprocess_image pil ip rgb = Return tensor ->
  detect_disease t pil ip file s =
    (try_except (prediction <- fst (predict t (disease_detector s) tensor) ;;
                 respond prediction)
                (fun e => Raise (internal_error e)),
     {| disease_detector := snd (predict t (disease_detector s) tensor);
        calls := calls s ++ decoded_calls file image rgb tensor |}).
Proof.
  intros Hct Himage Hopen Hrgb Htensor.
  unfold detect_disease, detect_disease_try, try_route. rewrite Hct, Himage. cbn [negb].
  unfold and_then at 1. unfold call at 1. rewrite Hopen.
  unfold and_then at 1. unfold decoded_calls, as_rgb, as_rgb_calls in *.
  destruct (negb (mode_eqb (mode image) RGB)).
  - unfold call at 1. rewrite Hrgb.
    unfold and_then at 1. unfold call at 1. rewrite Htensor.
    unfold and_then, call_predict. cbn [disease_detector calls].
    destruct (predict t (disease_detector s) tensor) as [[p|e] d]; cbn [fst snd bind try_except].
    + rewrite <- !app_assoc. cbn [app].
      destruct (respond p); reflexivity.
    + rewrite <- !app_assoc. reflexivity.
  - unfold ret. injection Hrgb as <-.
    unfold and_then at 1. unfold call at 1. rewrite Htensor.
    unfold and_then, call_predict. cbn [disease_detector calls].
    destruct (predict t (disease_detector s) tensor) as [[p|e] d]; cbn [fst snd bind try_except].
    + rewrite <- !app_assoc. cbn [app].
      destruct (respond p); reflexivity.
    + rewrite <- !app_assoc. reflexivity.
Qed.

(** C3, as the code has it: the route never calls the quality gate, nor
    the enhancer.  An upload declared as an image whose bytes decode is
    converted to RGB when it is not RGB, then normalized, then classified,
    with exactly these calls in this order; the answer is the response
    built from the prediction.  No verdict of the gate enters, so an image
    the gate would reject is normalized and classified like any other. *)
Theorem detect_disease_skips_quality_gate
    (file : UploadFile) (s : App) (ct : string)
    (image rgb : Image) (tensor : ndarray spec_float) :
  content_type file = Some ct ->
  String.prefix "image/" ct = true ->
  Image_open pil (contents file) = Return image ->
  as_rgb pil image = Return rgb ->
  ImageProcessor.preprocess_image pil ip rgb = Return tensor ->
  detect_disease t pil ip file s =
    (try_except (prediction <- fst (predict t (disease_detector s) tensor) ;;
                 respond prediction)
                (fun e => Raise (internal_error e)),
     {| disease_detector := snd (predict t (disease_detector s) tensor);
        calls := calls s
                 ++ Image_open_call (contents file) :: as_rgb_calls image
                 ++ [preprocess_image_call rgb; predict_call tensor] |})
  /\ existsb gate_or_enhancer
       (Image_open_call (contents file) :: as_rgb_calls image
        ++ [preprocess_image_call rgb; predict_call tensor]) = false
  /\ (forall c,
        In c (Image_open_call (contents file) :: as_rgb_calls image
              ++ [preprocess_image_call rgb; predict_call tensor]) ->
        gate_or_enhancer c = false).
Proof.
  intros Hct Himage Hopen Hrgb Htensor.
  split; [| split].
  - now apply (detect_disease_decoded file s ct image rgb tensor).
  - apply existsb_none, (decoded_calls_skip_gate file image rgb tensor).
  - apply (decoded_calls_skip_gate file image rgb tensor).
Qed.

End Detect.

End Pipeline.

(** ** The program at work on the stand-ins *)

Module Examples.

Import Float FloatFacts ImageProcessor DiseaseDetector Main Spec.

(** The stand-in [resize] keeps the contract of Pillow's. *)
Lemma stub_resize_contract (im : Image) (size : nat * nat) (f : Resampling) (out : Image) :
  Stub.resize im size f = Return out -> resized_to im size out.
Proof.
  unfold Stub.resize. destruct size as [w h].
  destruct ((width im =? 0) || (height im =? 0)); [discriminate|].
  intros H. injection H as <-. unfold resized_to, well_formed. cbn [pixels width height mode fst snd].
  repeat split.
  rewrite flat_map_constant_length with (c := w * bands (mode im)).
  - rewrite length_seq. lia.
  - intros y _. rewrite flat_map_constant_length with (c := bands (mode im)).
    + now rewrite length_seq.
    + intros x _. now rewrite length_map, length_seq.
Qed.

Lemma stub_resized (im : Image) :
  (width im =? 0) || (height im =? 0) = false ->
  resize Stub.pil im (224, 224) LANCZOS = Return (Stub.resized im).
Proof.
  intros H. unfold Stub.resized. cbn [resize Stub.pil]. unfold Stub.resize. now rewrite H.
Qed.



(** C10 at work: the luminance-alpha pixel keeps its two channels. *)
Lemma preprocess_image_keeps_two_channels :
  exists tensor,
    preprocess_image Stub.pil ImageProcessor.__init__ Stub.la_pixel = Return tensor
    /\ shape tensor = [224; 224; 2]
    /\ shape tensor <> [224; 224; 3]
    /\ length (data tensor) = 224 * 224 * 2
    /\ data tensor = map scaled (pixels (Stub.resized Stub.la_pixel))
    /\ Forall unit_float32 (data tensor).
Proof.
  apply (Normalizer.preprocess_image_keeps_other_channel_counts Stub.pil Stub.la_pixel
           (Stub.resized Stub.la_pixel)).
  - now apply stub_resized.
  - apply (stub_resize_contract _ _ LANCZOS). now apply stub_resized.
  - discriminate.
  - discriminate.
  - discriminate.
Defined.

(** The stand-ins on the checkerboards: the luminance plane that
    [convert('L')] returns, and the grey array of [cv2.cvtColor]. *)
Lemma checker_luminance : convert Stub.pil Stub.checker_rgb L = Return Stub.checker_grey.
Proof. vm_compute; reflexivity. Qed.

Lemma checker_dark_luminance :
  convert Stub.pil Stub.checker_dark L = Return Stub.checker_dark_grey.
Proof. vm_compute; reflexivity. Qed.

Lemma checker_grey_array :
  cvtColor Stub.cv (to_array Stub.checker_rgb) COLOR_RGB2GRAY
  = Return (to_array Stub.checker_grey).
Proof. vm_compute; reflexivity. Qed.

(** C4 at work: the 100x100 checkerboard (mean luminance 128, Laplacian
    variance 2500) is accepted, its darkened copy (mean luminance 16) is
    rejected as too dark, the 99x150 image is rejected for its size. *)
Lemma quality_gate_accepts_checkerboard_rejects_narrow :
  validate_image_quality Stub.pil Stub.cv Stub.npy Stub.checker_rgb
    = Return (true, "Image quality is acceptable")
  /\ validate_image_quality Stub.pil Stub.cv Stub.npy Stub.checker_dark
    = Return (false, "Image too dark. Please use better lighting.")
  /\ validate_image_quality Stub.pil Stub.cv Stub.npy Stub.narrow
    = Return (false, "Image too small. Minimum size: 100x100").
Proof.
  split; [| split].
  - destruct (QualityGate.validate_image_quality_checks_in_order
                Stub.pil Stub.cv Stub.npy Stub.checker_rgb) as (_ & _ & H).
    assert (Hw : 100 <= width Stub.checker_rgb) by (simpl; lia).
    assert (Hh : 100 <= height Stub.checker_rgb) by (simpl; lia).
    destruct (H Hw Hh Stub.checker_grey checker_luminance) as (_ & _ & Hrange).
    assert (Hlo : le (f64_of_Z 30) (mean (to_array Stub.checker_grey)) = true)
      by (vm_compute; reflexivity).
    assert (Hhi : le (mean (to_array Stub.checker_grey)) (f64_of_Z 220) = true)
      by (vm_compute; reflexivity).
    destruct (Hrange Hlo Hhi (to_array Stub.checker_grey) _ checker_grey_array eq_refl)
      as (_ & Haccept).
    apply Haccept. vm_compute; reflexivity.
  - destruct (QualityGate.validate_image_quality_checks_in_order
                Stub.pil Stub.cv Stub.npy Stub.checker_dark) as (_ & _ & H).
    assert (Hw : 100 <= width Stub.checker_dark) by (simpl; lia).
    assert (Hh : 100 <= height Stub.checker_dark) by (simpl; lia).
    destruct (H Hw Hh Stub.checker_dark_grey checker_dark_luminance) as (Hdark & _).
    apply Hdark. vm_compute; reflexivity.
  - apply (proj1 (proj2 (QualityGate.validate_image_quality_checks_in_order
                           Stub.pil Stub.cv Stub.npy Stub.narrow))); reflexivity.
Defined.

(** C5 at work: OpenCV refuses the grey checkerboard (it has one channel),
    the sharpness cannot be computed, and the image is accepted unchecked. *)
Lemma quality_gate_accepts_what_it_cannot_check :
  laplacian_var Stub.cv Stub.npy Stub.checker_grey
    = Raise (LibError "cv2" "Invalid number of channels in input image")
  /\ validate_image_quality Stub.pil Stub.cv Stub.npy Stub.checker_grey
    = Return (true, "Could not validate image quality, proceeding anyway").
Proof.
  assert (Hv : laplacian_var Stub.cv Stub.npy Stub.checker_grey
               = Raise (LibError "cv2" "Invalid number of channels in input image"))
    by reflexivity.
  split; [exact Hv|].
  destruct (QualityGate.validate_image_quality_never_raises
              Stub.pil Stub.cv Stub.npy Stub.checker_grey) as (_ & _ & _ & H).
  assert (Hw : 100 <= width Stub.checker_grey) by (simpl; lia).
  assert (Hh : 100 <= height Stub.checker_grey) by (simpl; lia).
  assert (Hm : mean_brightness Stub.pil Stub.checker_grey = Return (f64_of_Z 128))
    by (vm_compute; reflexivity).
  exact (H Hw Hh (f64_of_Z 128) _ Hm eq_refl eq_refl Hv).
Defined.

(** C7 at work: OpenCV refuses the grey pixel, and both transforms return
    it as it was. *)
Lemma enhancer_returns_grey_pixel_unchanged :
  enhance_image Stub.cv Stub.grey_pixel = Return Stub.grey_pixel
  /\ detect_leaf_regions Stub.cv Stub.grey_pixel = Return Stub.grey_pixel.
Proof.
  destruct (Enhancer.enhancer_returns_original_on_failure Stub.cv Stub.grey_pixel)
    as (_ & _ & Henhance & _ & _ & Hleaf).
  split.
  - exact (Henhance (LibError "cv2" "Invalid number of channels in input image") eq_refl).
  - exact (Hleaf (LibError "cv2" "Invalid number of channels in input image") eq_refl).
Defined.

Lemma la_tensor_refused :
  model_predict Stub.classifier (add_batch_dimension Stub.la_tensor)
  = Raise (LibError "tensorflow" "Input 0 is incompatible with the layer").
Proof. reflexivity. Qed.

Lemma pixel_tensor_classified :
  model_predict Stub.classifier (add_batch_dimension Stub.pixel_tensor)
  = Return [Stub.distribution].
Proof. reflexivity. Qed.

(** C1 at work: a detector that is not ready loads the classifier, the
    classifier refuses the two-channel tensor, and the caller gets the
    fallback. *)
Lemma predict_falls_back_on_refused_tensor :
  is_loaded (DiseaseDetector.__init__ None) = false
  /\ predict Stub.tensorflow (DiseaseDetector.__init__ None) Stub.la_tensor
     = (Return fallback, Stub.loaded).
Proof.
  split; [reflexivity|].
  exact (proj1 (proj2 (proj1 (Orchestrator.predict_failure_gives_fallback Stub.tensorflow
                                (DiseaseDetector.__init__ None) Stub.la_tensor)
                             Stub.loaded eq_refl))
               Stub.classifier _ eq_refl la_tensor_refused).
Defined.

(** C1 as the specification states it fails: the detector is unready, no
    stored model exists and TensorFlow cannot build the demo network, so
    [load_model] raises before the [try] of [predict] is entered; the caller
    gets TensorFlow's exception, not the fallback.  And the fallback, when
    it is returned, has no distribution to read. *)
Lemma unready_detector_gets_no_fallback :
  is_loaded (DiseaseDetector.__init__ None) = false
  /\ load_model Stub.no_tensorflow (DiseaseDetector.__init__ None)
     = (Raise (LibError "tensorflow" "OOM when allocating tensor"),
        DiseaseDetector.__init__ None)
  /\ predict Stub.no_tensorflow (DiseaseDetector.__init__ None) Stub.pixel_tensor
     = (Raise (LibError "tensorflow" "OOM when allocating tensor"),
        DiseaseDetector.__init__ None)
  /\ fst (predict Stub.no_tensorflow (DiseaseDetector.__init__ None) Stub.pixel_tensor)
     <> Return fallback
  /\ dict_lookup fallback "all_predictions" = None
  /\ dict_getitem fallback "all_predictions" = Raise (KeyError "all_predictions").
Proof. repeat split. discriminate. Qed.

Lemma class_names_distinct : NoDup (class_names Stub.loaded).
Proof.
  cbn [class_names Stub.loaded set_model DiseaseDetector.__init__].
  repeat (constructor; [cbn [In]; intuition discriminate|]). constructor.
Qed.

Lemma distribution_no_nan : no_nan Stub.distribution.
Proof. repeat constructor. Qed.

(** C6 at work: on the distribution [[0.7, 0.1, 0.05, ...]] the answer is
    "Healthy" with confidence 0.7 and the recommendations of "Healthy". *)
Lemma predict_healthy :
  predict Stub.tensorflow (DiseaseDetector.__init__ None) Stub.pixel_tensor
  = (Return [ ("disease", VStr "Healthy");
              ("confidence", VFloat (Stub.decimal 7 10));
              ("recommendations",
               VList [ "Your plant appears healthy! Continue current care practices.";
                       "Maintain proper watering and ensure good air circulation.";
                       "Monitor regularly for any changes." ]);
              ("all_predictions",
               VDict (combine (class_names Stub.loaded) Stub.distribution)) ],
     Stub.loaded).
Proof.
  destruct (Orchestrator.predict_returns_first_maximum Stub.tensorflow
              (DiseaseDetector.__init__ None) Stub.loaded Stub.pixel_tensor
              Stub.classifier Stub.distribution [] eq_refl eq_refl pixel_tensor_classified)
    as (k & label & p & Hk & Hlabel & (Hp & _) & Hpredict).
  - discriminate.
  - exact class_names_distinct.
  - reflexivity.
  - exact distribution_no_nan.
  - vm_compute in Hk. injection Hk as <-.
    vm_compute in Hlabel. injection Hlabel as <-.
    vm_compute in Hp. injection Hp as <-.
    exact Hpredict.
Defined.

(** C9 at work: a label outside the table gets the default advice. *)
Lemma unknown_label_gets_default :
  get_recommendations (DiseaseDetector.__init__ None) "Powdery Mildew"
  = [ "Consult with a plant pathologist for specific treatment advice.";
      "Monitor the plant closely for changes.";
      "Consider isolating the plant if symptoms worsen." ].
Proof.
  exact (proj1 (Orchestrator.recommendation_lookup_total None "Powdery Mildew") eq_refl).
Defined.

Lemma pixel_preprocessed :
  preprocess_image Stub.pil Main.image_processor Stub.rgb_pixel = Return Stub.pixel_tensor.
Proof.
  unfold Main.image_processor.
  rewrite (Normalizer.preprocess_image_resized Stub.pil ImageProcessor.__init__
             Stub.rgb_pixel (Stub.resized Stub.rgb_pixel)) by now apply stub_resized.
  reflexivity.
Qed.

(** The route on the upload of the RGB pixel. *)
Lemma pixel_upload_run :
  detect_disease Stub.tensorflow Stub.pil Main.image_processor Stub.pixel_upload Main.initial
  = (Return {| content :=
                 [ ("disease", VStr "Healthy");
                   ("confidence", VFloat (Stub.decimal 7 10));
                   ("recommendations",
                    VList [ "Your plant appears healthy! Continue current care practices.";
                            "Maintain proper watering and ensure good air circulation.";
                            "Monitor regularly for any changes." ]) ] |},
     {| disease_detector := Stub.loaded;
        calls := [ Image_open_call (contents Stub.pixel_upload);
                   preprocess_image_call Stub.rgb_pixel;
                   predict_call Stub.pixel_tensor ] |}).
Proof.
  rewrite (Pipeline.detect_disease_decoded Stub.tensorflow Stub.pil Main.image_processor
             Stub.pixel_upload Main.initial "image/png" Stub.rgb_pixel Stub.rgb_pixel
             Stub.pixel_tensor eq_refl eq_refl eq_refl eq_refl pixel_preprocessed).
  reflexivity.
Qed.

(** C3 as the specification states it fails: the upload decodes to an image
    that the quality gate rejects, and the route answers with a diagnosis
    without a call of the gate or of the enhancer. *)
Lemma quality_gate_is_not_run :
  Image_open Stub.pil (contents Stub.pixel_upload) = Return Stub.rgb_pixel
  /\ validate_image_quality Stub.pil Stub.cv Stub.npy Stub.rgb_pixel
     = Return (false, "Image too small. Minimum size: 100x100")
  /\ (exists response,
       fst (detect_disease Stub.tensorflow Stub.pil Main.image_processor
              Stub.pixel_upload Main.initial) = Return response
       /\ dict_lookup (content response) "disease" = Some (VStr "Healthy"))
  /\ ~ (exists image,
         In (validate_image_quality_call image)
            (calls (snd (detect_disease Stub.tensorflow Stub.pil Main.image_processor
                           Stub.pixel_upload Main.initial))))
  /\ ~ (exists image,
         In (enhance_image_call image)
            (calls (snd (detect_disease Stub.tensorflow Stub.pil Main.image_processor
                           Stub.pixel_upload Main.initial)))).
Proof.
  rewrite pixel_upload_run. cbn [fst snd calls content].
  repeat split.
  - eexists. split; reflexivity.
  - intros (image & [H | [H | [H | []]]]); discriminate.
  - intros (image & [H | [H | [H | []]]]); discriminate.
Qed.

(** C3 at work: the single pixel, which the quality gate rejects, is
    normalized and classified, in three calls. *)
Lemma rejected_pixel_is_classified :
  validate_image_quality Stub.pil Stub.cv Stub.npy Stub.rgb_pixel
    = Return (false, "Image too small. Minimum size: 100x100")
  /\ calls (snd (detect_disease Stub.tensorflow Stub.pil Main.image_processor
                   Stub.pixel_upload Main.initial))
     = [ Image_open_call (contents Stub.pixel_upload);
         preprocess_image_call Stub.rgb_pixel;
         predict_call Stub.pixel_tensor ].
Proof.
  split; [reflexivity|].
  rewrite (proj1 (Pipeline.detect_disease_skips_quality_gate
                    Stub.tensorflow Stub.pil Main.image_processor
                    Stub.pixel_upload Main.initial "image/png" Stub.rgb_pixel Stub.rgb_pixel
                    Stub.pixel_tensor eq_refl eq_refl eq_refl eq_refl pixel_preprocessed)).
  reflexivity.
Defined.

(** C8 at work: an upload of no bytes ends in the error of the route, with
    the decoder's message, after the one call of [Image.open]. *)
Lemma empty_upload_is_refused :
  detect_disease Stub.tensorflow Stub.pil Main.image_processor Stub.empty_upload Main.initial
  = (Raise (HTTPException 500 "Error processing image: cannot identify image file"),
     {| disease_detector := DiseaseDetector.__init__ None;
        calls := [Image_open_call []] |}).
Proof.
  destruct (Pipeline.undecodable_upload_is_terminal Stub.tensorflow Stub.pil
              Main.image_processor Stub.empty_upload Main.initial
              (LibError "PIL" "cannot identify image file") eq_refl)
    as (detail & new & Hrun & _ & _ & _ & Hdetail).
  destruct (Hdetail "image/png" eq_refl eq_refl) as [-> ->].
  exact Hrun.
Defined.

(** X1 at work. *)
Lemma predict_raises_without_tensorflow :
  predict Stub.no_tensorflow (DiseaseDetector.__init__ None) Stub.pixel_tensor
  = (Raise (LibError "tensorflow" "OOM when allocating tensor"), DiseaseDetector.__init__ None).
Proof.
  exact (Orchestrator.predict_raises_when_no_model_can_be_built Stub.no_tensorflow
           (DiseaseDetector.__init__ None) Stub.pixel_tensor _ eq_refl eq_refl eq_refl).
Defined.

(** X2 at work. *)
Lemma preprocess_image_refuses_no_pixels :
  preprocess_image Stub.pil ImageProcessor.__init__ Stub.no_pixels
  = Raise (ValueError "Failed to preprocess image: image has no pixels").
Proof.
  exact (Normalizer.preprocess_image_resize_raises Stub.pil ImageProcessor.__init__
           Stub.no_pixels (ValueError "image has no pixels") eq_refl).
Defined.

(** X3 at work. *)
Lemma text_upload_is_internal_error :
  detect_disease Stub.tensorflow Stub.pil Main.image_processor Stub.text_upload Main.initial
  = (Raise (internal_error (HTTPException 400 "File must be an image")), Main.initial).
Proof.
  exact (Pipeline.undeclared_image_is_internal_error Stub.tensorflow Stub.pil
           Main.image_processor Stub.text_upload Main.initial "text/plain" eq_refl eq_refl).
Defined.

End Examples.

(** * Further properties of the code *)

(** ** Leaf isolation *)

Module LeafIsolation.

Import ImageProcessor.

(** Every entry of a blacked-out list is a zero or the entry of the source
    at the same place. *)
Lemma zero_where_keeps_or_blackens (c : nat) (mask l : list byte) (j : nat) (v : byte) :
  nth_error (zero_where c mask l) j = Some v -> v = x00 \/ nth_error l j = Some v.
Proof.
  revert l j. induction mask as [|m mask IH]; intros l j H.
  - now rewrite nth_error_nil in H.
  - cbn [zero_where] in H. destruct (byte_is_zero m).
    + destruct (Nat.ltb_spec j c) as [Hj|Hj].
      * rewrite nth_error_app1 in H by now rewrite repeat_length.
        left. apply nth_error_In in H. now apply repeat_spec in H.
      * rewrite nth_error_app2, repeat_length in H by now rewrite repeat_length.
        destruct (IH _ _ H) as [-> | H']; [now left | right].
        rewrite nth_error_skipn in H'. now replace (c + (j - c)) with j in H' by lia.
    + destruct (Nat.ltb_spec j (length (firstn c l))) as [Hj|Hj].
      * rewrite nth_error_app1 in H by assumption. right.
        rewrite nth_error_firstn in H. destruct (j <? c); [assumption | discriminate].
      * rewrite nth_error_app2 in H by assumption.
        destruct (IH _ _ H) as [-> | H']; [now left | right].
        rewrite length_firstn in *.
        destruct (Nat.le_gt_cases (length l) c) as [Hshort|Hlong].
        -- rewrite skipn_all2, nth_error_nil in H' by assumption. discriminate.
        -- rewrite nth_error_skipn in H'.
           now replace (c + (j - Nat.min c (length l))) with j in H' by lia.
Qed.

(** X4: [detect_leaf_regions] returns an image for every input, of the
    width, height and channel count of the input, and whatever OpenCV
    computes for the mask, each sample of the result is the sample of the
    input at the same place or 0: leaf isolation only ever blacks pixels
    out. *)
Theorem detect_leaf_regions_only_blackens (cv : cv2) (image : Image) :
  exists out,
    detect_leaf_regions cv image = Return out
    /\ width out = width image
    /\ height out = height image
    /\ bands (mode out) = bands (mode image)
    /\ forall j v, nth_error (pixels out) j = Some v ->
         v = x00 \/ nth_error (pixels image) j = Some v.
Proof.
  unfold detect_leaf_regions.
  destruct (detect_leaf_regions_try cv image) as [out|e] eqn:Htry; cbn [try_except];
    [| exists image; repeat split; auto ].
  exists out. split; [reflexivity|].
  unfold detect_leaf_regions_try in Htry.
  destruct (cvtColor cv (to_array image) COLOR_RGB2HSV) as [hsv|]; [|discriminate].
  cbn [bind] in Htry.
  destruct (inRange cv hsv [35; 40; 40] [85; 255; 255]) as [mask0|]; [|discriminate].
  cbn [bind] in Htry.
  destruct (morphologyEx cv mask0 MORPH_CLOSE (ones 5 5)) as [mask1|]; [|discriminate].
  cbn [bind] in Htry.
  destruct (morphologyEx cv mask1 MORPH_OPEN (ones 5 5)) as [mask|]; [|discriminate].
  cbn [bind] in Htry.
  unfold to_array, blackout in Htry.
  destruct (Nat.eqb_spec (bands (mode image)) 1) as [Hone|Hmore]; cbn [shape data] in Htry.
  - destruct (negb (shape_eqb (shape mask) [height image; width image]));
      [discriminate|].
    destruct (length (filter byte_is_zero (data mask)) =? 3); [|discriminate].
    cbn [bind fromarray shape data] in Htry. injection Htry as <-.
    cbn [width height mode pixels bands]. repeat split; auto.
    intros j v. apply zero_where_keeps_or_blackens.
  - destruct (negb (shape_eqb (shape mask) [height image; width image]));
      [discriminate|].
    destruct (Nat.eqb_spec (bands (mode image)) 3) as [Hthree|]; [|discriminate].
    rewrite Hthree in Htry.
    cbn [bind fromarray shape data] in Htry. injection Htry as <-.
    cbn [width height mode pixels bands]. repeat split; auto.
    intros j v. apply zero_where_keeps_or_blackens.
Qed.

End LeafIsolation.

(** ** The verdicts of the quality gate *)

Module GateOutcomes.

Import Float ImageProcessor Spec.

(** X5: [validate_image_quality] has six outcomes and no other: four
    rejections (too small, too dark, too bright, blurry) and two
    acceptances (acceptable, not validated).  The rejection for size is
    given exactly to the images narrower or lower than 100.  A sharpness
    that is not a number is not below 100: an image of sufficient size and
    luminance whose Laplacian variance is NaN is accepted. *)
Theorem validate_image_quality_outcomes (pil : PIL) (cv : cv2) (npy : numpy) (image : Image) :
  (exists verdict,
     validate_image_quality pil cv npy image = Return verdict
     /\ In verdict [ (false, too_small); (false, too_dark); (false, too_bright);
                     (false, blurry); (true, acceptable); (true, not_validated) ])
  /\ (validate_image_quality pil cv npy image = Return (false, too_small)
      <-> width image < 100 \/ height image < 100)
  /\ (100 <= width image -> 100 <= height image ->
      forall m, mean_brightness pil image = Return m ->
      lt m (f64_of_Z 30) = false -> gt m (f64_of_Z 220) = false ->
      laplacian_var cv npy image = Return S754_nan ->
      validate_image_quality pil cv npy image = Return (true, acceptable)).
Proof.
  assert (Hcases :
    (width image < 100 \/ height image < 100)
    \/ (100 <= width image /\ 100 <= height image)) by lia.
  split; [| split].
  - destruct Hcases as [Hsmall | [Hw Hh]].
    + exists (false, too_small). split; [| now left].
      apply QualityGate.validate_of_try, QualityGate.small_rejected, Hsmall.
    + unfold validate_image_quality.
      rewrite (QualityGate.large_enough pil cv npy image Hw Hh).
      destruct (mean_brightness pil image) as [m|]; cbn [bind try_except];
        [| eexists; split; [reflexivity | cbn; tauto] ].
      destruct (lt m (f64_of_Z 30));
        [ eexists; split; [reflexivity | cbn; tauto] |].
      destruct (gt m (f64_of_Z 220));
        [ eexists; split; [reflexivity | cbn; tauto] |].
      destruct (laplacian_var cv npy image) as [v|]; cbn [bind try_except];
        [| eexists; split; [reflexivity | cbn; tauto] ].
      destruct (lt v (f64_of_Z 100)); eexists; (split; [reflexivity | cbn; tauto]).
  - split.
    + intros Hverdict. destruct Hcases as [Hsmall | [Hw Hh]]; [exact Hsmall | exfalso].
      unfold validate_image_quality in Hverdict.
      rewrite (QualityGate.large_enough pil cv npy image Hw Hh) in Hverdict.
      destruct (mean_brightness pil image) as [m|]; cbn [bind try_except] in Hverdict;
        [| discriminate].
      destruct (lt m (f64_of_Z 30)); [discriminate|].
      destruct (gt m (f64_of_Z 220)); [discriminate|].
      destruct (laplacian_var cv npy image) as [v|]; cbn [bind try_except] in Hverdict;
        [| discriminate].
      destruct (lt v (f64_of_Z 100)); discriminate.
    + intros Hsmall.
      apply QualityGate.validate_of_try, QualityGate.small_rejected, Hsmall.
  - intros Hw Hh m Hm Hdark Hbright Hnan.
    apply QualityGate.validate_of_try.
    rewrite (QualityGate.large_enough pil cv npy image Hw Hh), Hm. cbn [bind].
    rewrite Hdark, Hbright, Hnan. reflexivity.
Qed.

End GateOutcomes.

(** ** The scale of the normalizer *)

Module Scaling.

Import Float FloatFacts Spec Checks.

Lemma scaled_as_nat (b : byte) : scaled b = scaled_nat (N.to_nat (Byte.to_N b)).
Proof. unfold scaled, scaled_nat. now rewrite N_nat_Z. Qed.

Lemma byte_below_256 (b : byte) : N.to_nat (Byte.to_N b) < 256.
Proof. pose proof (Byte.to_N_bounded b). lia. Qed.

Lemma increasing_below_256_holds : increasing_below_256 = true.
Proof. vm_compute. reflexivity. Qed.

Lemma scaled_nat_step (i : nat) : i < 255 -> lt (scaled_nat i) (scaled_nat (S i)) = true.
Proof.
  intros Hi. pose proof increasing_below_256_holds as H.
  unfold increasing_below_256 in H. rewrite forallb_forall in H.
  apply H, in_seq. lia.
Qed.

Lemma scaled_nat_increasing (i j : nat) :
  i < j -> j < 256 -> lt (scaled_nat i) (scaled_nat j) = true.
Proof.
  induction j as [|j IH]; intros Hij Hj; [lia|].
  destruct (Nat.eq_dec i j) as [->|Hne].
  - apply scaled_nat_step. lia.
  - apply le_lt_trans with (y := scaled_nat j).
    + apply lt_le, IH; lia.
    + apply scaled_nat_step. lia.
Qed.

(** X6: the scaling of [preprocess_image] maps a [uint8] array sample by
    sample, sends 0 to 0.0 and 255 to 1.0 exactly, and is strictly
    increasing: a brighter sample gives a greater float, so no two sample
    values are merged. *)
Theorem scaling_is_strictly_increasing (a : ndarray byte) :
  div_scalar_f32 (astype_float32 a) 255 = mk_ndarray (shape a) (map scaled (data a))
  /\ scaled x00 = S754_zero false
  /\ scaled xff = f32_of_Z 1
  /\ (forall b1 b2, (Byte.to_N b1 < Byte.to_N b2)%N -> lt (scaled b1) (scaled b2) = true)
  /\ (forall b1 b2, scaled b1 = scaled b2 -> b1 = b2).
Proof.
  assert (Hlt : forall b1 b2, (Byte.to_N b1 < Byte.to_N b2)%N ->
                              lt (scaled b1) (scaled b2) = true).
  { intros b1 b2 Hb. rewrite !scaled_as_nat.
    apply scaled_nat_increasing; [lia | apply byte_below_256]. }
  split; [apply Normalizer.scale_data|].
  split; [reflexivity|]. split; [reflexivity|]. split; [exact Hlt|].
  intros b1 b2 Heq.
  assert (Hirr : forall b, lt (scaled b) (scaled b) = false).
  { intros b. apply le_not_gt, le_refl. now destruct (Normalizer.scaled_unit b) as (_ & H & _);
      destruct (scaled b). }
  destruct (N.lt_total (Byte.to_N b1) (Byte.to_N b2)) as [H | [H | H]].
  - apply Hlt in H. rewrite Heq, Hirr in H. discriminate.
  - pose proof (Byte.of_to_N b1) as H1. rewrite H, Byte.of_to_N in H1. congruence.
  - apply Hlt in H. rewrite Heq, Hirr in H. discriminate.
Qed.

End Scaling.

(** ** Labels and advice *)

Module Labels.

Import DiseaseDetector.

(** X7: the label set is closed under the recommendation table: each of
    the ten supported diseases has its own entry, of at least three pieces
    of advice, which is what the lookup returns and is not the default
    list; the table has no other key, and no label occurs twice. *)
Theorem supported_diseases_have_advice (path : option string) (label : string) :
  In label (get_supported_diseases (DiseaseDetector.__init__ path)) ->
  (exists advice,
     dict_lookup (recommendations (DiseaseDetector.__init__ path)) label = Some advice
     /\ get_recommendations (DiseaseDetector.__init__ path) label = advice
     /\ 3 <= length advice
     /\ advice <> default_recommendations)
  /\ map fst (recommendations (DiseaseDetector.__init__ path))
     = get_supported_diseases (DiseaseDetector.__init__ path)
  /\ NoDup (get_supported_diseases (DiseaseDetector.__init__ path))
  /\ length (get_supported_diseases (DiseaseDetector.__init__ path)) = 10.
Proof.
  intros Hin. split; [| split; [reflexivity | split; [| reflexivity]]].
  - unfold get_recommendations, dict_get.
    cbn [get_supported_diseases class_names DiseaseDetector.__init__ In] in Hin.
    repeat (destruct Hin as [<- | Hin];
            [eexists; split; [reflexivity|]; cbn;
             split; [reflexivity | split; [lia | discriminate]] |]).
    contradiction.
  - cbn [get_supported_diseases class_names DiseaseDetector.__init__].
    repeat (constructor; [cbn [In]; intuition discriminate|]). constructor.
Qed.

End Labels.

(** ** The results of [predict] *)

Module PredictContract.

Import Float DiseaseDetector Spec.

Lemma ensure_model_frame (t : tf) (self self' : DiseaseDetector) r :
  ensure_model t self = (r, self') ->
  class_names self' = class_names self
  /\ recommendations self' = recommendations self
  /\ model_path self' = model_path self
  /\ (forall m, model self = Some m -> self' = self /\ r = Return tt).
Proof.
  unfold ensure_model, load_model. destruct (model self) as [m0|] eqn:Hm.
  - intros H. injection H as <- <-. repeat split; congruence.
  - destruct (if os_path_exists t (model_path self) then _ else _) as [m|e].
    + intros H. injection H as <- <-. repeat split; discriminate.
    + destruct (_create_demo_model t self) as [m|e'];
        intros H; injection H as <- <-; repeat split; discriminate.
Qed.

(** The comprehension reads the row below the number of labels only. *)
Lemma all_predictions_firstn (self : DiseaseDetector) (row : list spec_float) (n : nat)
    (indices : list nat) (acc : dict spec_float) :
  (forall i, In i indices -> i < n) ->
  all_predictions self row indices acc = all_predictions self (firstn n row) indices acc.
Proof.
  revert acc. induction indices as [|i indices IH]; intros acc Hbound; [reflexivity|].
  cbn [all_predictions]. unfold getitem at 2 4.
  rewrite nth_error_firstn.
  destruct (Nat.ltb_spec i n) as [_|Hi]; [| specialize (Hbound i (or_introl eq_refl)); lia].
  destruct (getitem (class_names self) i) as [name|]; [|reflexivity]. cbn [bind].
  destruct (nth_error row i) as [p|]; [|reflexivity]. cbn [bind].
  apply IH. intros j Hj. apply Hbound. now right.
Qed.

(** A row shorter than the list of labels stops the comprehension. *)
Lemma all_predictions_short (self : DiseaseDetector) (row : list spec_float)
    (indices : list nat) (acc : dict spec_float) :
  (exists i, In i indices /\ length row <= i) ->
  exists e, all_predictions self row indices acc = Raise e.
Proof.
  revert acc. induction indices as [|i indices IH]; intros acc (j & Hj & Hlen); [easy|].
  cbn [all_predictions].
  destruct (getitem (class_names self) i) as [name|e]; [| cbn [bind]; eauto]. cbn [bind].
  unfold getitem. destruct (nth_error row i) as [p|] eqn:Hp; [| cbn [bind]; eauto].
  cbn [bind]. apply IH. destruct Hj as [<- | Hj]; [| exists j; now split].
  apply nth_error_None in Hlen. congruence.
Qed.

Lemma lookup_combine_nth {V} (names : list string) (vals : list V) (k : nat)
    (label : string) (v : V) :
  NoDup names -> nth_error names k = Some label -> nth_error vals k = Some v ->
  dict_lookup (combine names vals) label = Some v.
Proof.
  revert vals k. induction names as [|name names IH]; intros vals k Hdup Hlabel Hv.
  - now rewrite nth_error_nil in Hlabel.
  - destruct vals as [|x vals]; [now rewrite nth_error_nil in Hv|].
    inversion Hdup as [|? ? Hnotin Hdup']; subst.
    destruct k as [|k]; cbn [nth_error] in Hlabel, Hv; cbn [combine dict_lookup].
    + injection Hlabel as ->. injection Hv as ->. now rewrite String.eqb_refl.
    + destruct (String.eqb_spec label name) as [->|_].
      * exfalso. apply Hnotin. eapply nth_error_In, Hlabel.
      * eapply IH; eassumption.
Qed.

Lemma combine_keys_all {A B} (l : list A) (l' : list B) :
  length l <= length l' -> map fst (combine l l') = l.
Proof.
  revert l'. induction l as [|x l IH]; intros [|y l'] Hlen; cbn in *; try lia; try reflexivity.
  f_equal. apply IH. lia.
Qed.

(** What the comprehension returns, when it returns. *)
Lemma all_predictions_returns (self : DiseaseDetector) (row : list spec_float)
    (dist : dict spec_float) :
  NoDup (class_names self) ->
  all_predictions self row (seq 0 (length (class_names self))) [] = Return dist ->
  length (class_names self) <= length row
  /\ dist = combine (class_names self)
              (map float (firstn (length (class_names self)) row)).
Proof.
  intros Hdup Hdist.
  destruct (Nat.le_gt_cases (length (class_names self)) (length row)) as [Hlen|Hlen].
  - split; [assumption|].
    rewrite (all_predictions_firstn self row (length (class_names self))) in Hdist
      by (intros i Hi; apply in_seq in Hi; lia).
    rewrite Orchestrator.all_predictions_full in Hdist
      by (try assumption; rewrite length_firstn; lia).
    now injection Hdist as <-.
  - destruct (all_predictions_short self row (seq 0 (length (class_names self))) [])
      as (e & He).
    + exists (length row). split; [apply in_seq; lia | lia].
    + congruence.
Qed.

Section Predict.
Variable t : tf.

(** X8: a result of [predict] is the fallback or a full diagnosis: a
    disease that is one of the class names, the recommendations looked up
    for it, and a distribution whose keys are the class names in order and
    whose entry for the disease is the confidence. *)
Theorem predict_result_is_well_formed
    (self self' : DiseaseDetector) (image : ndarray spec_float) (r : dict value) :
  NoDup (class_names self) ->
  predict t self image = (Return r, self') ->
  r = fallback
  \/ exists label confidence dist,
       r = [ ("disease", VStr label);
             ("confidence", VFloat confidence);
             ("recommendations", VList (get_recommendations self label));
             ("all_predictions", VDict dist) ]
       /\ In label (class_names self)
       /\ map fst dist = class_names self
       /\ dict_lookup dist label = Some confidence.
Proof.
  intros Hdup Hpredict. unfold predict in Hpredict.
  destruct (ensure_model t self) as [[u|e] s1] eqn:Hload; [| discriminate].
  injection Hpredict as Hr <-.
  destruct (ensure_model_frame t self s1 _ Hload) as (Hnames & Hrecs & _ & _).
  destruct (predict_try s1 image) as [r0|e] eqn:Htry; cbn [try_except] in Hr;
    [| left; congruence].
  injection Hr as <-. right.
  unfold predict_try in Htry.
  destruct (match model s1 with Some m => _ | None => _ end) as [predictions|];
    [| discriminate].
  cbn [bind] in Htry.
  destruct (getitem predictions 0) as [row|]; [| discriminate]. cbn [bind] in Htry.
  destruct (argmax row) as [k|]; [| discriminate]. cbn [bind] in Htry.
  unfold getitem at 1 2 in Htry.
  destruct (nth_error row k) as [p|] eqn:Hp; [| discriminate]. cbn [bind] in Htry.
  destruct (nth_error (class_names s1) k) as [label|] eqn:Hlabel; [| discriminate].
  cbn [bind] in Htry.
  destruct (all_predictions s1 row (seq 0 (length (class_names s1))) []) as [dist|] eqn:Hdist;
    [| discriminate].
  cbn [bind] in Htry. injection Htry as <-.
  rewrite <- Hnames in Hdup.
  destruct (all_predictions_returns s1 row dist Hdup Hdist) as (Hlen & ->).
  exists label, (float p), (combine (class_names s1)
                             (map float (firstn (length (class_names s1)) row))).
  rewrite <- Hnames. repeat split.
  - unfold get_recommendations. now rewrite Hrecs.
  - eapply nth_error_In, Hlabel.
  - apply combine_keys_all. rewrite length_map, length_firstn. lia.
  - apply (lookup_combine_nth _ _ k); [assumption | assumption |].
    rewrite nth_error_map, nth_error_firstn.
    assert (k < length (class_names s1)) by (apply nth_error_Some; congruence).
    destruct (Nat.ltb_spec k (length (class_names s1))); [| lia]. now rewrite Hp.
Qed.

(** X9: a model whose answer has no row, or a row with fewer
    probabilities than there are class names, gets the fallback, whatever
    the probabilities are. *)
Theorem predict_short_row_gives_fallback
    (self self' : DiseaseDetector) (image : ndarray spec_float)
    (m : Model) (predictions : list (list spec_float)) :
  ensure_model t self = (Return tt, self') ->
  model self' = Some m ->
  model_predict m (add_batch_dimension image) = Return predictions ->
  (forall row rest, predictions = row :: rest -> length row < length (class_names self')) ->
  predict t self image = (Return fallback, self').
Proof.
  intros Hload Hm Hpredictions Hshort.
  rewrite (Orchestrator.predict_of_try t self self' image Hload).
  unfold predict_try. rewrite Hm, Hpredictions. cbn [bind].
  destruct predictions as [|row rest]; [reflexivity|].
  specialize (Hshort row rest eq_refl). cbn [getitem nth_error bind].
  destruct (argmax row) as [k|]; [| reflexivity]. cbn [bind].
  destruct (getitem row k) as [p|]; [| reflexivity]. cbn [bind].
  destruct (getitem (class_names self') k) as [label|]; [| reflexivity]. cbn [bind].
  destruct (all_predictions_short self' row (seq 0 (length (class_names self'))) [])
    as (e & ->); [| reflexivity].
  exists (length row). split; [apply in_seq; lia | lia].
Qed.

(** X10: [predict] loads a model at most once.  It never changes the class
    names, the recommendations or the model path; a detector that has a
    model is left exactly as it is; and after a call that returns, the
    detector has a model, which every later call keeps. *)
Theorem predict_loads_the_model_once
    (self : DiseaseDetector) (image : ndarray spec_float) :
  class_names (snd (predict t self image)) = class_names self
  /\ recommendations (snd (predict t self image)) = recommendations self
  /\ model_path (snd (predict t self image)) = model_path self
  /\ (forall m, model self = Some m ->
      snd (predict t self image) = self
      /\ exists r, fst (predict t self image) = Return r)
  /\ (forall r self', predict t self image = (Return r, self') ->
      is_loaded self' = true
      /\ forall image', snd (predict t self' image') = self').
Proof.
  assert (Hkeep : forall s m img, model s = Some m ->
            snd (predict t s img) = s /\ exists r, fst (predict t s img) = Return r).
  { intros s m img Hm. unfold predict, ensure_model. rewrite Hm. cbn [fst snd].
    split; [reflexivity|].
    destruct (predict_try s img); cbn [try_except]; eauto. }
  unfold predict at 1 2 3.
  destruct (ensure_model t self) as [[u|e] s1] eqn:Hload;
    destruct (ensure_model_frame t self s1 _ Hload) as (Hnames & Hrecs & Hpath & _);
    cbn [snd]; (split; [assumption|]); (split; [assumption|]); (split; [assumption|]);
    (split; [exact (fun m => Hkeep self m image)|]).
  - intros r self' Hpredict. unfold predict in Hpredict. rewrite Hload in Hpredict.
    injection Hpredict as _ <-.
    destruct (Orchestrator.ensure_model_loaded t self s1 u Hload) as (m & Hm).
    split; [unfold is_loaded; now rewrite Hm|].
    intros image'. apply (Hkeep s1 m image' Hm).
  - intros r self' Hpredict. unfold predict in Hpredict. rewrite Hload in Hpredict.
    discriminate.
Qed.

End Predict.

End PredictContract.

(** ** The answers of the [/api/detect] route *)

Module RouteContract.

Import Float DiseaseDetector Main Endpoints Spec.

(** The shape of a result of [predict], for any list of class names. *)
Lemma predict_result_shape (t : tf) (self self' : DiseaseDetector)
    (image : ndarray spec_float) (r : dict value) :
  predict t self image = (Return r, self') ->
  is_loaded self' = true
  /\ (r = fallback
      \/ exists label confidence dist,
           r = [ ("disease", VStr label);
                 ("confidence", VFloat confidence);
                 ("recommendations", VList (get_recommendations self label));
                 ("all_predictions", VDict dist) ]
           /\ In label (class_names self)).
Proof.
  intros Hpredict. unfold predict in Hpredict.
  destruct (ensure_model t self) as [[u|e] s1] eqn:Hload; [| discriminate].
  injection Hpredict as Hr <-.
  destruct (PredictContract.ensure_model_frame t self s1 _ Hload) as (Hnames & Hrecs & _ & _).
  destruct (Orchestrator.ensure_model_loaded t self s1 u Hload) as (m & Hm).
  split; [unfold is_loaded; now rewrite Hm|].
  destruct (predict_try s1 image) as [r0|e] eqn:Htry; cbn [try_except] in Hr;
    [| left; congruence].
  injection Hr as <-. right.
  unfold predict_try in Htry. rewrite Hm in Htry.
  destruct (model_predict m (add_batch_dimension image)) as [predictions|]; [| discriminate].
  cbn [bind] in Htry.
  destruct (getitem predictions 0) as [row|]; [| discriminate]. cbn [bind] in Htry.
  destruct (argmax row) as [k|]; [| discriminate]. cbn [bind] in Htry.
  destruct (getitem row k) as [p|]; [| discriminate]. cbn [bind] in Htry.
  unfold getitem at 1 in Htry.
  destruct (nth_error (class_names s1) k) as [label|] eqn:Hlabel; [| discriminate].
  cbn [bind] in Htry.
  destruct (all_predictions s1 row (seq 0 (length (class_names s1))) []) as [dist|];
    [| discriminate].
  cbn [bind] in Htry. injection Htry as <-.
  exists label, (float p), dist. split.
  - unfold get_recommendations. now rewrite Hrecs.
  - rewrite <- Hnames. eapply nth_error_In, Hlabel.
Qed.

Section Detect.
Variable t : tf.
Variable pil : PIL.
Variable ip : ImageProcessor.ImageProcessor.

(** A response is returned at the end of the one path through the route. *)
Lemma detect_disease_try_returns (file : UploadFile) (s s' : App) (response : JSONResponse) :
  detect_disease_try t pil ip file s = (Return response, s') ->
  exists ct image rgb tensor prediction,
    content_type file = Some ct
    /\ String.prefix "image/" ct = true
    /\ Image_open pil (contents file) = Return image
    /\ as_rgb pil image = Return rgb
    /\ ImageProcessor.preprocess_image pil ip rgb = Return tensor
    /\ predict t (disease_detector s) tensor = (Return prediction, disease_detector s')
    /\ respond prediction = Return response
    /\ calls s' = calls s ++ decoded_calls file image rgb tensor.
Proof.
  unfold detect_disease_try. destruct (content_type file) as [ct|]; [| discriminate].
  destruct (String.prefix "image/" ct) eqn:Hct; cbn [negb]; [| discriminate].
  unfold and_then at 1. unfold call at 1.
  destruct (Image_open pil (contents file)) as [image|] eqn:Hopen; [| discriminate].
  unfold and_then at 1.
  destruct (negb (mode_eqb (mode image) RGB)) eqn:Hmode.
  - unfold call at 1.
    destruct (convert pil image RGB) as [rgb|] eqn:Hrgb; [| discriminate].
    unfold and_then at 1. unfold call at 1.
    destruct (ImageProcessor.preprocess_image pil ip rgb) as [tensor|] eqn:Htensor;
      [| discriminate].
    unfold and_then, call_predict. cbn [disease_detector calls].
    destruct (predict t (disease_detector s) tensor) as [[prediction|] d] eqn:Hpredict;
      [| discriminate].
    intros H. injection H as Hrespond <-. cbn [disease_detector calls].
    exists ct, image, rgb, tensor, prediction.
    unfold decoded_calls, as_rgb, as_rgb_calls. rewrite Hmode, <- !app_assoc.
    now repeat split.
  - unfold ret.
    unfold and_then at 1. unfold call at 1.
    destruct (ImageProcessor.preprocess_image pil ip image) as [tensor|] eqn:Htensor;
      [| discriminate].
    unfold and_then, call_predict. cbn [disease_detector calls].
    destruct (predict t (disease_detector s) tensor) as [[prediction|] d] eqn:Hpredict;
      [| discriminate].
    intros H. injection H as Hrespond <-. cbn [disease_detector calls].
    exists ct, image, image, tensor, prediction.
    unfold decoded_calls, as_rgb, as_rgb_calls. rewrite Hmode, <- !app_assoc.
    now repeat split.
Qed.

(** X11: the two outcomes of [detect_disease].  What it raises is always
    the HTTPException of status 500 whose detail starts "Error processing
    image: ".  What it returns has the keys disease, confidence and
    recommendations and no other (the distribution is not passed on), a
    finite confidence, and a disease that is "Analysis Failed" or one of the
    class names; it is returned only for an upload declared as an image that
    decoded and was normalized, and leaves the detector with a model. *)
Theorem detect_disease_outcomes (file : UploadFile) (s : App) :
  (forall e s', detect_disease t pil ip file s = (Raise e, s') ->
     exists cause, e = HTTPException 500 ("Error processing image: " ++ str cause))
  /\ (forall response s', detect_disease t pil ip file s = (Return response, s') ->
      exists label confidence advice,
        content response = [ ("disease", VStr label);
                             ("confidence", VFloat confidence);
                             ("recommendations", VList advice) ]
        /\ is_finite confidence = true
        /\ (label = "Analysis Failed" \/ In label (class_names (disease_detector s)))
        /\ is_loaded (disease_detector s') = true
        /\ exists ct image rgb tensor,
             content_type file = Some ct
             /\ String.prefix "image/" ct = true
             /\ Image_open pil (contents file) = Return image
             /\ as_rgb pil image = Return rgb
             /\ ImageProcessor.preprocess_image pil ip rgb = Return tensor
             /\ calls s' = calls s ++ decoded_calls file image rgb tensor).
Proof.
  split.
  - intros e s'. unfold detect_disease, try_route.
    destruct (detect_disease_try t pil ip file s) as [[response|cause] s1]; [discriminate|].
    cbn [throw]. intros H. injection H as <- _. now exists cause.
  - intros response s'. unfold detect_disease, try_route.
    destruct (detect_disease_try t pil ip file s) as [[response'|cause] s1] eqn:Htry;
      [| discriminate].
    intros H. injection H as <- <-.
    destruct (detect_disease_try_returns file s s1 response' Htry)
      as (ct & image & rgb & tensor & prediction
          & Hct & Hprefix & Hopen & Hrgb & Htensor & Hpredict & Hrespond & Hcalls).
    destruct (predict_result_shape t _ _ _ _ Hpredict)
      as (Hloaded & [-> | (label & confidence & dist & -> & Hlabel)]).
    + cbn in Hrespond. injection Hrespond as <-.
      eexists _, _, _. split; [reflexivity|].
      split; [reflexivity|]. split; [now left|]. split; [assumption|].
      now exists ct, image, rgb, tensor.
    + unfold respond in Hrespond. cbn [dict_getitem dict_lookup String.eqb] in Hrespond.
      cbn in Hrespond. unfold JSONResponse_init in Hrespond.
      cbn [forallb snd andb] in Hrespond.
      destruct (is_finite (float confidence)) eqn:Hfinite; cbn in Hrespond; [| discriminate].
      injection Hrespond as <-.
      exists label, (float confidence), (get_recommendations (disease_detector s) label).
      split; [reflexivity|]. split; [assumption|]. split; [now right|].
      split; [assumption|]. now exists ct, image, rgb, tensor.
Qed.

(** X12: a failure of the inference is not an error of the route: for an
    upload that decodes and is normalized, when the classifier (or anything
    else in the [try] of [predict]) raises, [detect_disease] returns the
    response "Analysis Failed" with confidence 0.0 and the three fallback
    recommendations. *)
Theorem detect_disease_answers_fallback
    (file : UploadFile) (s : App) (ct : string) (image rgb : Image)
    (tensor : ndarray spec_float) (d : DiseaseDetector) (e : exn) :
  content_type file = Some ct ->
  String.prefix "image/" ct = true ->
  Image_open pil (contents file) = Return image ->
  as_rgb pil image = Return rgb ->
  ImageProcessor.preprocess_image pil ip rgb = Return tensor ->
  ensure_model t (disease_detector s) = (Return tt, d) ->
  predict_try d tensor = Raise e ->
  detect_disease t pil ip file s =
    (Return {| content :=
                 [ ("disease", VStr "Analysis Failed");
                   ("confidence", VFloat (f64_of_Z 0));
                   ("recommendations",
                    VList [ "Unable to analyze image. Please try again with a clearer image.";
                            "Ensure the image shows a clear view of plant leaves.";
                            "Contact support if the problem persists." ]) ] |},
     {| disease_detector := d;
        calls := calls s ++ decoded_calls file image rgb tensor |}).
Proof.
  intros Hct Hprefix Hopen Hrgb Htensor Hload Htry.
  rewrite (Pipeline.detect_disease_decoded t pil ip file s ct image rgb tensor)
    by assumption.
  rewrite (Orchestrator.predict_of_try t _ d tensor Hload), Htry.
  reflexivity.
Qed.

(** X13: [startup_event] never raises and makes no call on the pipeline.
    Afterwards the detector holds the stored model when its file exists and
    loads, the demo network when there is no such file or it does not load,
    and is left as it was, without a new model, when the demo network cannot
    be built either; [/health] answers "healthy" in every case, with
    [model_loaded] telling whether a model is there. *)
Theorem startup_event_never_raises (s : App) :
  exists d,
    startup_event t s = (Return tt, {| disease_detector := d; calls := calls s |})
    /\ class_names d = class_names (disease_detector s)
    /\ recommendations d = recommendations (disease_detector s)
    /\ status (health_check {| disease_detector := d; calls := calls s |}) = "healthy"
    /\ model_loaded (health_check {| disease_detector := d; calls := calls s |})
       = is_loaded d
    /\ (forall m, os_path_exists t (model_path (disease_detector s)) = true ->
        keras_load_model t (model_path (disease_detector s)) = Return m ->
        model d = Some m)
    /\ (forall m,
        (os_path_exists t (model_path (disease_detector s)) = false
         \/ exists e, keras_load_model t (model_path (disease_detector s)) = Raise e) ->
        keras_Sequential t (length (class_names (disease_detector s))) = Return m ->
        model d = Some m)
    /\ (forall e,
        (os_path_exists t (model_path (disease_detector s)) = false
         \/ exists e', keras_load_model t (model_path (disease_detector s)) = Raise e') ->
        keras_Sequential t (length (class_names (disease_detector s))) = Raise e ->
        d = disease_detector s).
Proof.
  unfold startup_event, load_model, _create_demo_model.
  destruct (os_path_exists t (model_path (disease_detector s))) eqn:Hpath.
  - destruct (keras_load_model t (model_path (disease_detector s))) as [m|e] eqn:Hstored.
    + eexists. split; [reflexivity|]. cbn.
      repeat split; try congruence.
      * intros m' [Hno | (e & He)]; congruence.
      * intros e [Hno | (e' & He)]; congruence.
    + destruct (keras_Sequential t (length (class_names (disease_detector s))))
        as [m|e'] eqn:Hdemo.
      * eexists. split; [reflexivity|]. cbn. repeat split; congruence.
      * eexists. split; [reflexivity|]. cbn. repeat split; congruence.
  - destruct (keras_Sequential t (length (class_names (disease_detector s))))
      as [m|e'] eqn:Hdemo.
    + eexists. split; [reflexivity|]. cbn. repeat split; congruence.
    + eexists. split; [reflexivity|]. cbn. repeat split; congruence.
Qed.

(** X14: where TensorFlow can build no model (no stored file, and the demo
    network fails), the service still starts and [/health] answers
    "healthy" with [model_loaded] false, while every upload that decodes
    and is normalized ends in the HTTPException of status 500 that carries
    TensorFlow's message: [predict] tries to load the model again, outside
    its [try]. *)
Theorem without_a_model_requests_fail
    (file : UploadFile) (s : App) (ct : string) (image rgb : Image)
    (tensor : ndarray spec_float) (e : exn) :
  model (disease_detector s) = None ->
  os_path_exists t (model_path (disease_detector s)) = false ->
  keras_Sequential t (length (class_names (disease_detector s))) = Raise e ->
  content_type file = Some ct ->
  String.prefix "image/" ct = true ->
  Image_open pil (contents file) = Return image ->
  as_rgb pil image = Return rgb ->
  ImageProcessor.preprocess_image pil ip rgb = Return tensor ->
  startup_event t s = (Return tt, s)
  /\ health_check s = {| status := "healthy"; model_loaded := false; version := "1.0.0" |}
  /\ detect_disease t pil ip file s =
       (Raise (HTTPException 500 ("Error processing image: " ++ str e)),
        {| disease_detector := disease_detector s;
           calls := calls s ++ decoded_calls file image rgb tensor |}).
Proof.
  intros Hnone Hpath Hdemo Hct Hprefix Hopen Hrgb Htensor.
  split; [| split].
  - unfold startup_event, load_model, _create_demo_model.
    rewrite Hpath, Hdemo. now destruct s.
  - unfold health_check, is_loaded. now rewrite Hnone.
  - rewrite (Pipeline.detect_disease_decoded t pil ip file s ct image rgb tensor)
      by assumption.
    unfold predict, ensure_model, load_model, _create_demo_model.
    rewrite Hnone, Hpath, Hdemo. reflexivity.
Qed.

End Detect.

End RouteContract.

(** ** The further properties at work *)

Module MoreExamples.

Import Float ImageProcessor DiseaseDetector Main Endpoints Spec.

(** X4 at work: of a leaf-green pixel and a dark one, the second is
    blacked out and the first kept. *)
Lemma dark_pixel_is_blacked_out :
  exists out,
    detect_leaf_regions Fixtures.masking_cv Fixtures.two_pixels = Return out
    /\ pixels out = [x20; x80; x40; x00; x00; x00]
    /\ width out = 2 /\ height out = 1.
Proof.
  destruct (LeafIsolation.detect_leaf_regions_only_blackens
              Fixtures.masking_cv Fixtures.two_pixels) as (out & Hout & Hw & Hh & _).
  exists out. split; [exact Hout|]. split; [| split; assumption].
  vm_compute in Hout. now injection Hout as <-.
Defined.

(** X7 at work. *)
Lemma late_blight_has_advice :
  exists advice,
    dict_lookup (recommendations (DiseaseDetector.__init__ None)) "Late Blight" = Some advice
    /\ get_recommendations (DiseaseDetector.__init__ None) "Late Blight" = advice
    /\ 3 <= length advice
    /\ advice <> default_recommendations.
Proof.
  apply (proj1 (Labels.supported_diseases_have_advice None "Late Blight"
                  ltac:(cbn; tauto))).
Defined.

Lemma pixel_prediction :
  exists r, predict Stub.tensorflow (DiseaseDetector.__init__ None) Stub.pixel_tensor
            = (Return r, Stub.loaded)
            /\ dict_lookup r "disease" = Some (VStr "Healthy").
Proof. eexists. split; reflexivity. Qed.

(** X8 at work: the diagnosis of the RGB pixel is well formed. *)
Lemma pixel_diagnosis_is_well_formed :
  exists r,
    predict Stub.tensorflow (DiseaseDetector.__init__ None) Stub.pixel_tensor
    = (Return r, Stub.loaded)
    /\ dict_lookup r "disease" = Some (VStr "Healthy")
    /\ (r = fallback
        \/ exists label confidence dist,
             r = [ ("disease", VStr label);
                   ("confidence", VFloat confidence);
                   ("recommendations",
                    VList (get_recommendations (DiseaseDetector.__init__ None) label));
                   ("all_predictions", VDict dist) ]
             /\ In label (class_names (DiseaseDetector.__init__ None))
             /\ map fst dist = class_names (DiseaseDetector.__init__ None)
             /\ dict_lookup dist label = Some confidence).
Proof.
  destruct pixel_prediction as (r & Hr & Hdisease).
  exists r. split; [exact Hr|]. split; [exact Hdisease|].
  exact (PredictContract.predict_result_is_well_formed Stub.tensorflow
           (DiseaseDetector.__init__ None) Stub.loaded Stub.pixel_tensor r
           Examples.class_names_distinct Hr).
Defined.

(** X9 at work: a classifier for three classes under ten labels. *)
Lemma three_class_model_gives_fallback :
  predict (Fixtures.with_model Fixtures.three_class_classifier)
          (DiseaseDetector.__init__ None) Stub.pixel_tensor
  = (Return fallback,
     set_model (DiseaseDetector.__init__ None) Fixtures.three_class_classifier).
Proof.
  apply (PredictContract.predict_short_row_gives_fallback
           (Fixtures.with_model Fixtures.three_class_classifier)
           (DiseaseDetector.__init__ None)
           (set_model (DiseaseDetector.__init__ None) Fixtures.three_class_classifier)
           Stub.pixel_tensor Fixtures.three_class_classifier
           [[Stub.decimal 7 10; Stub.decimal 2 10; Stub.decimal 1 10]]).
  - reflexivity.
  - reflexivity.
  - reflexivity.
  - intros row rest H. injection H as <- _. cbn. lia.
Defined.

(** X12 at work: the classifier fails, the route answers. *)
Lemma failing_classifier_is_answered :
  detect_disease (Fixtures.with_model Fixtures.failing_classifier) Stub.pil
    Main.image_processor Stub.pixel_upload Main.initial
  = (Return {| content :=
                 [ ("disease", VStr "Analysis Failed");
                   ("confidence", VFloat (f64_of_Z 0));
                   ("recommendations",
                    VList [ "Unable to analyze image. Please try again with a clearer image.";
                            "Ensure the image shows a clear view of plant leaves.";
                            "Contact support if the problem persists." ]) ] |},
     {| disease_detector :=
          set_model (DiseaseDetector.__init__ None) Fixtures.failing_classifier;
        calls := [ Image_open_call (contents Stub.pixel_upload);
                   preprocess_image_call Stub.rgb_pixel;
                   predict_call Stub.pixel_tensor ] |}).
Proof.
  exact (RouteContract.detect_disease_answers_fallback
           (Fixtures.with_model Fixtures.failing_classifier) Stub.pil Main.image_processor
           Stub.pixel_upload Main.initial "image/png" Stub.rgb_pixel Stub.rgb_pixel
           Stub.pixel_tensor
           (set_model (DiseaseDetector.__init__ None) Fixtures.failing_classifier)
           (LibError "tensorflow" "Graph execution error")
           eq_refl eq_refl eq_refl eq_refl Examples.pixel_preprocessed eq_refl eq_refl).
Defined.

(** X14 at work: no TensorFlow, a healthy service, a failed request. *)
Lemma service_without_tensorflow :
  startup_event Stub.no_tensorflow Main.initial = (Return tt, Main.initial)
  /\ health_check Main.initial
     = {| status := "healthy"; model_loaded := false; version := "1.0.0" |}
  /\ detect_disease Stub.no_tensorflow Stub.pil Main.image_processor
       Stub.pixel_upload Main.initial
     = (Raise (HTTPException 500 "Error processing image: OOM when allocating tensor"),
        {| disease_detector := DiseaseDetector.__init__ None;
           calls := [ Image_open_call (contents Stub.pixel_upload);
                      preprocess_image_call Stub.rgb_pixel;
                      predict_call Stub.pixel_tensor ] |}).
Proof.
  exact (RouteContract.without_a_model_requests_fail
           Stub.no_tensorflow Stub.pil Main.image_processor
           Stub.pixel_upload Main.initial "image/png" Stub.rgb_pixel Stub.rgb_pixel
           Stub.pixel_tensor (LibError "tensorflow" "OOM when allocating tensor")
           eq_refl eq_refl eq_refl eq_refl eq_refl eq_refl eq_refl
           Examples.pixel_preprocessed).
Defined.

End MoreExamples.

(** ** When the normalizer fails, and ties *)

Module Totality.

Import Float ImageProcessor DiseaseDetector Spec Checks.

(** X15: on an image whose samples are bytes ([Image], the 8-bit modes of
    Pillow), [preprocess_image] fails only when the resize fails.  Once
    Pillow has returned the resized image, for any target size and any of
    these modes, the tensor is returned: its shape is the height and width
    of the resized image with three channels for an image of one or four,
    the image's own count otherwise, and every value is a binary32 number
    in [0, 1]. *)
Theorem preprocess_image_fails_only_in_resize
    (pil : PIL) (self : ImageProcessor) (image resized : Image) :
  resize pil image (target_size self) LANCZOS = Return resized ->
  exists tensor,
    preprocess_image pil self image = Return tensor
    /\ shape tensor = [height resized; width resized; channels_out (bands (mode resized))]
    /\ Forall unit_float32 (data tensor).
Proof.
  intros Hresize.
  rewrite (Normalizer.preprocess_image_resized pil self image resized Hresize).
  unfold ensure_3_channels, to_array, channels_out.
  destruct (Nat.eqb_spec (bands (mode resized)) 1) as [Hone|Hmore].
  - cbn [shape length Nat.eqb bind try_except]. rewrite Normalizer.scale_data.
    eexists. split; [reflexivity|]. cbn [shape data stack3_last app].
    split; [reflexivity | apply Normalizer.scaled_all_unit].
  - cbn [shape length Nat.eqb nth_error].
    destruct (Nat.eqb_spec (bands (mode resized)) 4) as [Hfour|Hother].
    + unfold slice_last3. cbn [shape data bind try_except]. rewrite Normalizer.scale_data.
      eexists. split; [reflexivity|]. cbn [shape data]. rewrite Hfour.
      split; [reflexivity | apply Normalizer.scaled_all_unit].
    + cbn [bind try_except]. rewrite Normalizer.scale_data.
      eexists. split; [reflexivity|]. cbn [shape data].
      split; [reflexivity | apply Normalizer.scaled_all_unit].
Qed.

(** No entry above the running maximum: the scan stays where it is. *)
Lemma argmax_scan_stays (x : spec_float) (i : nat) (rest : list spec_float) :
  (forall y, In y rest -> le y x = true) -> argmax_scan x 0 i rest = 0.
Proof.
  revert i. induction rest as [|y rest IH]; intros i Hle; [reflexivity|].
  cbn [argmax_scan]. destruct (is_nan x); [reflexivity|].
  rewrite (Hle y) by now left. apply IH. intros z Hz. apply Hle. now right.
Qed.

(** X16: ties go to the first label.  When the model's row has one
    probability per class name and none exceeds the first, [predict]
    answers the first class name (for this detector, "Healthy"), with the
    first probability as confidence: an undecided model reads as a healthy
    plant. *)
Theorem predict_ties_go_to_first_label
    (t : tf) (self self' : DiseaseDetector) (image : ndarray spec_float)
    (m : Model) (x : spec_float) (others : list spec_float)
    (rest : list (list spec_float)) (first : string) (names : list string) :
  ensure_model t self = (Return tt, self') ->
  model self' = Some m ->
  model_predict m (add_batch_dimension image) = Return ((x :: others) :: rest) ->
  class_names self' = first :: names ->
  NoDup (class_names self') ->
  length others = length names ->
  (forall y, In y others -> le y x = true) ->
  predict t self image =
    (Return [ ("disease", VStr first);
              ("confidence", VFloat (float x));
              ("recommendations", VList (get_recommendations self' first));
              ("all_predictions",
               VDict (combine (class_names self') (map float (x :: others)))) ],
     self').
Proof.
  intros Hload Hm Hpred Hnames Hdup Hlen Hle.
  rewrite (Orchestrator.predict_of_try t self self' image Hload).
  unfold predict_try. rewrite Hm, Hpred. cbn [bind getitem nth_error argmax].
  rewrite (argmax_scan_stays x 1 others Hle). cbn [bind nth_error].
  rewrite Orchestrator.all_predictions_full
    by (try assumption; rewrite Hnames; cbn [length]; lia).
  rewrite Hnames. reflexivity.
Qed.

End Totality.

Module TotalityExamples.

Import Float ImageProcessor DiseaseDetector Spec Checks.

(** X15 at work: the luminance-alpha pixel at the default size. *)
Lemma la_pixel_is_normalized :
  exists tensor,
    preprocess_image Stub.pil ImageProcessor.__init__ Stub.la_pixel = Return tensor
    /\ shape tensor = [224; 224; 2]
    /\ Forall unit_float32 (data tensor).
Proof.
  exact (Totality.preprocess_image_fails_only_in_resize Stub.pil ImageProcessor.__init__
           Stub.la_pixel (Stub.resized Stub.la_pixel)
           (Examples.stub_resized Stub.la_pixel eq_refl)).
Defined.

(** X16 at work: ten times 0.1 reads as "Healthy". *)
Lemma undecided_model_says_healthy :
  exists r,
    predict (Fixtures.with_model undecided_classifier)
            (DiseaseDetector.__init__ None) Stub.pixel_tensor
    = (Return r, set_model (DiseaseDetector.__init__ None) undecided_classifier)
    /\ dict_lookup r "disease" = Some (VStr "Healthy")
    /\ dict_lookup r "confidence" = Some (VFloat (Stub.decimal 1 10)).
Proof.
  eexists. split.
  - apply (Totality.predict_ties_go_to_first_label
             (Fixtures.with_model undecided_classifier)
             (DiseaseDetector.__init__ None)
             (set_model (DiseaseDetector.__init__ None) undecided_classifier)
             Stub.pixel_tensor undecided_classifier
             (Stub.decimal 1 10) (repeat (Stub.decimal 1 10) 9) []
             "Healthy"
             (tl (class_names (DiseaseDetector.__init__ None)))).
    + reflexivity.
    + reflexivity.
    + reflexivity.
    + reflexivity.
    + exact Examples.class_names_distinct.
    + reflexivity.
    + intros y Hy. apply repeat_spec in Hy. subst y. reflexivity.
  - split; reflexivity.
Defined.

End TotalityExamples.
